(** * KontoudskriftParser: the page-text-to-record reconstruction

    A shallow embedding of [KontoudskriftParser.py]: the currency decoder
    [bank_currency_format_to_decimal], the date handling of [parse_page]
    (built on [datetime.strptime], [strftime] and [timedelta]), the state
    machine of [parse_page] itself and [parse_doc].

    Modelling conventions.
    - A Python [str] is a Rocq [string]; every character is a code point
      below 256.  In that range the regular-expression class [\d] is exactly
      the ten ASCII digits.
    - A [datetime] produced by [strptime(..., "%d.%m.%Y")] has a zero time of
      day, so it is a calendar date [(year, month, day)].
    - An exception that leaves [parse_page] is a value of [error]; a function
      that may raise returns [result]. *)

From Stdlib Require Import ZArith List String Ascii Bool Lia.
From Stdlib Require Import DecimalString Permutation Sorted QArith.
Import ListNotations.

Local Open Scope string_scope.
Local Open Scope Z_scope.

(** ** Exceptions *)

(** The exceptions that can escape the functions of the module. *)
Inductive error : Type :=
| UnknownEndCharacter      (* Exception("Unknown end character on currency ...") *)
| InvalidOperation         (* decimal.InvalidOperation from Decimal(...) *)
| NoLeftStyle              (* Exception("No left style in paragraph style ...") *)
| TimestampNotAssigned     (* Exception("Timestamp ... could not be assigned within range ...") *)
| IncompleteRecordNewEntry (* Exception("Incomplete record found new entry timestamp") *)
| IncompletePageEnd        (* Exception("Page ended on incomplete record") *)
| ValueError               (* datetime.strptime on a string that is not a date *)
| IndexError               (* text.split(...)[1] out of range *)
| AttributeError           (* attribute access on None *)
| TypeError.               (* '<' between records without entry_time *)

Inductive result (A : Type) : Type :=
| Ok (a : A)
| Raise (e : error).

Arguments Ok {A} a.
Arguments Raise {A} e.

Definition bind {A B : Type} (r : result A) (k : A -> result B) : result B :=
  match r with
  | Ok a => k a
  | Raise e => Raise e
  end.

Notation "x <- r ;; k" := (bind r (fun x => k))
  (at level 61, r at next level, right associativity).

Definition of_option {A : Type} (e : error) (o : option A) : result A :=
  match o with
  | Some a => Ok a
  | None => Raise e
  end.

(** ** Strings *)

Module Str.

Definition is_digit (c : ascii) : bool :=
  let n := nat_of_ascii c in ((48 <=? n) && (n <=? 57))%nat.

Definition digit_value (c : ascii) : Z := Z.of_nat (nat_of_ascii c) - 48.

(** [text.startswith(p)] *)
Definition startswith (text p : string) : bool := prefix p text.

(** [text.endswith(c)] for a one-character suffix. *)
Fixpoint endswith (text : string) (c : ascii) : bool :=
  match text with
  | EmptyString => false
  | String a EmptyString => Ascii.eqb a c
  | String _ rest => endswith rest c
  end.

(** What follows the prefix [p] of [text], when [text] starts with it. *)
Fixpoint strip_prefix (p text : string) : option string :=
  match p with
  | EmptyString => Some text
  | String a p' =>
      match text with
      | EmptyString => None
      | String b rest => if Ascii.eqb a b then strip_prefix p' rest else None
      end
  end.

(** [sub in text] *)
Fixpoint contains (sub text : string) : bool :=
  prefix sub text ||
  match text with
  | EmptyString => false
  | String _ rest => contains sub rest
  end.

(** [text.split(sep)] for a non-empty separator: a left-to-right scan for
    non-overlapping occurrences.  [skip] counts the characters of an
    occurrence that are still to be passed over, [cur] is the piece being
    collected. *)
Fixpoint split_go (sep : string) (skip : nat) (cur : string) (text : string)
  : list string :=
  match text with
  | EmptyString => [cur]
  | String c rest =>
      match skip with
      | S k => split_go sep k cur rest
      | O =>
          if prefix sep text
          then cur :: split_go sep (Nat.pred (String.length sep)) EmptyString rest
          else split_go sep O (cur ++ String c EmptyString) rest
      end
  end.

Definition split (text sep : string) : list string :=
  split_go sep O EmptyString text.

(** The longest run of digits at the front of a string, and what follows. *)
Fixpoint span_digits (s : string) : string * string :=
  match s with
  | EmptyString => (EmptyString, EmptyString)
  | String c rest =>
      if is_digit c
      then let (ds, tl) := span_digits rest in (String c ds, tl)
      else (EmptyString, s)
  end.

(** [int(ds)] for a string of digits, most significant first. *)
Fixpoint int_acc (acc : Z) (ds : string) : Z :=
  match ds with
  | EmptyString => acc
  | String c rest => int_acc (10 * acc + digit_value c) rest
  end.

Definition int (ds : string) : Z := int_acc 0 ds.

(** [str(n)] for an integer. *)
Definition of_int (n : Z) : string := NilZero.string_of_int (Z.to_int n).

(** [n] printed with at least [w] digits, zero padded ([%02d], [%04d]). *)
Fixpoint zeros (k : nat) : string :=
  match k with
  | O => EmptyString
  | S k' => String "0" (zeros k')
  end.

Definition pad (w : nat) (n : Z) : string :=
  let s := of_int n in zeros (w - String.length s) ++ s.

Definition newline : ascii := ascii_of_nat 10.

(** [sep.join(l)] *)
Fixpoint join (sep : string) (l : list string) : string :=
  match l with
  | [] => EmptyString
  | [x] => x
  | x :: rest => x ++ sep ++ join sep rest
  end.

Fixpoint all_digits (s : string) : bool :=
  match s with
  | EmptyString => true
  | String c rest => is_digit c && all_digits rest
  end.

End Str.

(** ** datetime *)

Module DT.

(** A [datetime] with a zero time of day. *)
Record datetime : Type := mk { year : Z; month : Z; day : Z }.

Definition is_leap (y : Z) : bool :=
  (y mod 4 =? 0) && (negb (y mod 100 =? 0) || (y mod 400 =? 0)).

Definition days_in_month (y m : Z) : Z :=
  if m =? 2 then (if is_leap y then 29 else 28)
  else if (m =? 4) || (m =? 6) || (m =? 9) || (m =? 11) then 30
  else 31.

(** Number of days before January 1st of year [y]. *)
Definition days_before_year (y : Z) : Z :=
  let p := y - 1 in p * 365 + p / 4 - p / 100 + p / 400.

(** Number of days in year [y] before the first day of month [m]. *)
Definition days_before_month (y m : Z) : Z :=
  nth (Z.to_nat m) [0; 0; 31; 59; 90; 120; 151; 181; 212; 243; 273; 304; 334] 0
  + (if (2 <? m) && is_leap y then 1 else 0).

(** [d.toordinal()]: January 1st of year 1 is day 1. *)
Definition toordinal (d : datetime) : Z :=
  days_before_year (year d) + days_before_month (year d) (month d) + day d.

(** The checks of the [datetime] constructor. *)
Definition valid (y m d : Z) : bool :=
  (1 <=? y) && (y <=? 9999) && (1 <=? m) && (m <=? 12)
  && (1 <=? d) && (d <=? days_in_month y m).

(** [a < b] and [a <= b]: comparison of the fields in order. *)
Definition ltb (a b : datetime) : bool :=
  (year a <? year b)
  || ((year a =? year b)
      && ((month a <? month b)
          || ((month a =? month b) && (day a <? day b)))).

Definition eqb (a b : datetime) : bool :=
  (year a =? year b) && (month a =? month b) && (day a =? day b).

Definition leb (a b : datetime) : bool := ltb a b || eqb a b.

(** [(a - b).days]; the seconds and microseconds of the difference are 0. *)
Definition sub_days (a b : datetime) : Z := toordinal a - toordinal b.

(** *** strptime with format ["%d.%m.%Y"]

    [_strptime] matches the string against the regular expression
<<
    (?P<d>3[0-1]|[1-2]\d|0[1-9]|[1-9]| [1-9])\.
    (?P<m>1[0-2]|0[1-9]|[1-9])\.(?P<Y>\d\d\d\d)
>>
    anchored at the start, rejects the string when the match does not
    reach its end, and builds the date.  A directive is a list of
    alternatives tried in order; the first one that lets the rest of the
    expression match wins. *)

Definition in_range (lo hi : nat) (c : ascii) : bool :=
  let n := nat_of_ascii c in ((lo <=? n) && (n <=? hi))%nat.

(** One alternative of a directive: the characters it accepts, in order. *)
Definition alt : Type := list (ascii -> bool).

Definition is_char (a : ascii) : ascii -> bool := Ascii.eqb a.

Definition d_alts : list alt :=
  [ [is_char "3"; in_range 48 49];
    [in_range 49 50; Str.is_digit];
    [is_char "0"; in_range 49 57];
    [in_range 49 57];
    [is_char " "; in_range 49 57] ].

Definition m_alts : list alt :=
  [ [is_char "1"; in_range 48 50];
    [is_char "0"; in_range 49 57];
    [in_range 49 57] ].

Definition Y_alts : list alt :=
  [ [Str.is_digit; Str.is_digit; Str.is_digit; Str.is_digit] ].

(** Match the characters of one alternative at the front of [s]; gives
    the matched text and the rest. *)
Fixpoint match_alt (a : alt) (s : string) : option (string * string) :=
  match a with
  | [] => Some (EmptyString, s)
  | p :: a' =>
      match s with
      | EmptyString => None
      | String c rest =>
          if p c
          then match match_alt a' rest with
               | Some (m, tl) => Some (String c m, tl)
               | None => None
               end
          else None
      end
  end.

(** Try the alternatives in order; [k] is the rest of the expression. *)
Fixpoint first_alt {A : Type} (alts : list alt) (s : string)
         (k : string -> string -> option A) : option A :=
  match alts with
  | [] => None
  | a :: alts' =>
      match match_alt a s with
      | Some (m, tl) =>
          match k m tl with
          | Some r => Some r
          | None => first_alt alts' s k
          end
      | None => first_alt alts' s k
      end
  end.

Definition literal_dot {A : Type} (s : string) (k : string -> option A)
  : option A :=
  match s with
  | String "." rest => k rest
  | _ => None
  end.

(** The groups [d], [m], [Y] of the first match and the unmatched rest. *)
Definition strptime_regex (s : string)
  : option (string * string * string * string) :=
  first_alt d_alts s (fun d s1 =>
    literal_dot s1 (fun s2 =>
      first_alt m_alts s2 (fun m s3 =>
        literal_dot s3 (fun s4 =>
          first_alt Y_alts s4 (fun y rest => Some (d, m, y, rest)))))).

(** [int(found_dict['d'])]: [int] accepts the leading space of [" 5"]. *)
Definition int_group (g : string) : Z :=
  match g with
  | String " " rest => Str.int rest
  | _ => Str.int g
  end.

(** [datetime.strptime(s, "%d.%m.%Y")]; [None] stands for [ValueError]. *)
Definition strptime (s : string) : option datetime :=
  match strptime_regex s with
  | Some (d, m, y, EmptyString) =>
      let dv := int_group d in
      let mv := int_group m in
      let yv := int_group y in
      if valid yv mv dv then Some (mk yv mv dv) else None
  | _ => None
  end.

(** [d.strftime("%d. %m. %Y")]; the year is printed with four digits, as
    the library documents it. *)
Definition strftime_d_m_Y (d : datetime) : string :=
  Str.pad 2 (day d) ++ ". " ++ Str.pad 2 (month d) ++ ". " ++ Str.pad 4 (year d).

End DT.

(** ** Decimal *)

Module Dec.

(** A finite [Decimal]: [(-1)^sign * coeff * 10^exp] with [0 <= coeff]. *)
Record Decimal : Type := mk { sign : bool; coeff : Z; exp : Z }.

(** [Decimal(s)] for a string without sign and exponent part: digits, an
    optional period and digits, with a digit somewhere.  The conversion is
    exact.  [None] stands for [decimal.InvalidOperation]. *)
Definition of_string (s : string) : option Decimal :=
  let (ip, rest) := Str.span_digits s in
  match rest with
  | EmptyString =>
      match ip with
      | EmptyString => None
      | _ => Some (mk false (Str.int ip) 0)
      end
  | String "." rest' =>
      let (fp, rest'') := Str.span_digits rest' in
      match rest'', (ip ++ fp)%string with
      | EmptyString, String _ _ =>
          Some (mk false (Str.int (ip ++ fp)) (- Z.of_nat (String.length fp)))
      | _, _ => None
      end
  | _ => None
  end.

Definition prec : Z := 28.

Definition num_digits (n : Z) : Z := Z.of_nat (String.length (Str.of_int n)).

(** Rounding of a result to the 28 significant digits of the default
    context, half to even.  The exponent limits of the context (about a
    million digits away) are not modelled. *)
Definition fix_ (d : Decimal) : Decimal :=
  if coeff d =? 0 then d
  else
    let n := num_digits (coeff d) in
    if n <=? prec then d
    else
      let shift := n - prec in
      let q := coeff d / 10 ^ shift in
      let r := coeff d mod 10 ^ shift in
      let half := 5 * 10 ^ (shift - 1) in
      let q' := if (half <? r) || ((r =? half) && Z.odd q) then q + 1 else q in
      if q' =? 10 ^ prec
      then mk (sign d) (10 ^ (prec - 1)) (exp d + shift + 1)
      else mk (sign d) q' (exp d + shift).

(** [d * 1] and [d * -1] *)
Definition mul_one (d : Decimal) : Decimal := fix_ d.
Definition mul_minus_one (d : Decimal) : Decimal :=
  fix_ (mk (negb (sign d)) (coeff d) (exp d)).

(** The number a [Decimal] denotes. *)
Definition to_Q (d : Decimal) : Q :=
  ((if sign d then -(1) else 1) * inject_Z (coeff d) * (10 # 1) ^ exp d)%Q.

End Dec.

(** ** bank_currency_format_to_decimal *)

(** ["".join([i for i in text if i in [c for c in "1234567890."]])] *)
Fixpoint digits_and_periods (text : string) : string :=
  match text with
  | EmptyString => EmptyString
  | String c rest =>
      if Str.is_digit c || Ascii.eqb c "."
      then String c (digits_and_periods rest)
      else digits_and_periods rest
  end.

Definition bank_currency_format_to_decimal (text : string) : result Dec.Decimal :=
  d <- of_option InvalidOperation (Dec.of_string (digits_and_periods text)) ;;
  if Str.endswith text "+" then Ok (Dec.mul_one d)
  else if Str.endswith text "-" then Ok (Dec.mul_minus_one d)
  else Raise UnknownEndCharacter.

(** ** BankItemLine *)

Record BankItemLine : Type := mkLine
  { entry_time : option DT.datetime;
    value_time : option DT.datetime;
    description : list string;
    credited : option Dec.Decimal;
    balance : option Dec.Decimal }.

(** [BankItemLine()] *)
Definition new_line : BankItemLine := mkLine None None [] None None.

Definition is_some {A : Type} (o : option A) : bool :=
  match o with Some _ => true | None => false end.

Definition is_complete (r : BankItemLine) : bool :=
  if negb (is_some (entry_time r)) then false
  else if negb (is_some (value_time r)) then false
  else if negb (is_some (credited r)) then false
  else if negb (is_some (balance r)) then false
  else if (List.length (description r) <? 1)%nat then false
  else true.

Definition set_entry_time (r : BankItemLine) (t : DT.datetime) : BankItemLine :=
  mkLine (Some t) (value_time r) (description r) (credited r) (balance r).

Definition set_value_time (r : BankItemLine) (t : DT.datetime) : BankItemLine :=
  mkLine (entry_time r) (Some t) (description r) (credited r) (balance r).

Definition set_credited (r : BankItemLine) (d : Dec.Decimal) : BankItemLine :=
  mkLine (entry_time r) (value_time r) (description r) (Some d) (balance r).

Definition set_balance (r : BankItemLine) (d : Dec.Decimal) : BankItemLine :=
  mkLine (entry_time r) (value_time r) (description r) (credited r) (Some d).

Definition append_description (r : BankItemLine) (t : string) : BankItemLine :=
  mkLine (entry_time r) (value_time r) (description r ++ [t]) (credited r) (balance r).

(** ** sorted

    The built-in [sorted] is a stable sort that compares with [<] only.  It
    is modelled by the stable insertion sort: an element is placed before
    the first element that is not smaller than it. *)

Section StableSort.

Variable A : Type.
Variable lt : A -> A -> bool.

Fixpoint insert (x : A) (l : list A) : list A :=
  match l with
  | [] => [x]
  | y :: l' => if lt y x then y :: insert x l' else x :: y :: l'
  end.

Fixpoint stable_sort (l : list A) : list A :=
  match l with
  | [] => []
  | x :: l' => insert x (stable_sort l')
  end.

End StableSort.

Arguments insert {A} lt x l.
Arguments stable_sort {A} lt l.

(** [BankItemLine.__lt__]: [self.entry_time.__lt__(other.entry_time)].  With
    a missing [entry_time] on either side the comparison gives
    [NotImplemented], and so does the reflected [__gt__]. *)
Definition line_lt (a b : BankItemLine) : option bool :=
  match entry_time a, entry_time b with
  | Some x, Some y => Some (DT.ltb x y)
  | _, _ => None
  end.

Definition line_ltb (a b : BankItemLine) : bool :=
  match line_lt a b with
  | Some c => c
  | None => false
  end.

(** [sorted(items)].  A list of fewer than two records is not compared at
    all; in a longer list every record takes part in a comparison, which
    raises [TypeError] when an [entry_time] is missing. *)
Definition sorted (items : list BankItemLine) : result (list BankItemLine) :=
  if (List.length items <=? 1)%nat then Ok items
  else if forallb (fun r => is_some (entry_time r)) items
       then Ok (stable_sort line_ltb items)
       else Raise TypeError.

(** ** The page as the parser sees it *)

(** What [parse_page] reads of the first [span] inside a [p] element. *)
Record Span : Type := mkSpan
  { span_text : string;               (* s.text *)
    span_style : option string }.     (* s["style"], KeyError when absent *)

(** What [parse_page] reads of a [p] element found by [find_all("p")]. *)
Record Paragraph : Type := mkP
  { p_span : option Span;             (* i.find("span") *)
    p_style : option string }.        (* i["style"], KeyError when absent *)

Definition ENTRY_DATE_LEFT_POSITION : Z := 57.
Definition VALUE_DATE_LEFT_POSITION : Z := 98.
Definition CREDITED_MIN_LEFT_POSITION : Z := 390.
Definition BALANCE_MIN_LEFT_POSITION : Z := 490.

(** *** The two regular expressions of [parse_page] *)

(** ["left:(\d+)pt"] matched at the front of [s]: the digits run as far as
    they go and must be followed by ["pt"]. *)
Definition match_left_here (s : string) : option Z :=
  match Str.strip_prefix "left:" s with
  | Some rest =>
      let (ds, tl) := Str.span_digits rest in
      match ds with
      | EmptyString => None
      | _ => if prefix "pt" tl then Some (Str.int ds) else None
      end
  | None => None
  end.

(** [match(r"^.*left:(\d+)pt", par_style)] and [int(group(1))].  The greedy
    [.*] does not cross a newline and gives back characters from the right,
    so the match found is the last one on the first line. *)
Fixpoint match_left_style (s : string) : option Z :=
  match s with
  | EmptyString => None
  | String c rest =>
      if Ascii.eqb c Str.newline then None
      else match match_left_style rest with
           | Some n => Some n
           | None => match_left_here s
           end
  end.

(** [match(r"^\d\d\.\d\d$", text)]; [$] also matches before a final
    newline. *)
Definition match_dd_mm (text : string) : bool :=
  match text with
  | String a (String b (String "." (String c (String d tl)))) =>
      Str.is_digit a && Str.is_digit b && Str.is_digit c && Str.is_digit d
      && match tl with
         | EmptyString => true
         | String n EmptyString => Ascii.eqb n Str.newline
         | _ => false
         end
  | _ => false
  end.

(** ** parse_page *)

(** The local variables of [parse_page] that live across loop iterations.
    A record is appended to [items] only when [record] is rebound to a
    fresh [BankItemLine()] (line 190) or after the loop (line 216), so an
    appended record is never changed afterwards and [items] holds values. *)
Record State : Type := mkState
  { items : list BankItemLine;
    record : option BankItemLine;
    is_recording : bool;
    time_range_start : option DT.datetime;
    time_range_end : option DT.datetime }.

Definition initial : State := mkState [] None false None None.

Definition with_record (st : State) (r : option BankItemLine) : State :=
  mkState (items st) r (is_recording st) (time_range_start st) (time_range_end st).

(** The [try] block at the head of the loop: the text and the paragraph
    style of a relevant element, [None] for an element that is skipped. *)
Definition relevant (p : Paragraph) : option (string * string) :=
  match p_span p with
  | None => None
  | Some s =>
      match span_style s, p_style p with
      | Some span_st, Some par_st =>
          if Str.contains "font-size:9pt" span_st
          then Some (span_text s, par_st)
          else None
      | _, _ => None
      end
  end.

(** [text.startswith(f'Balance as at {time_range_end.strftime("%d. %m. %Y")}')] *)
Definition is_terminator (e : DT.datetime) (text : string) : bool :=
  Str.startswith text ("Balance as at " ++ DT.strftime_d_m_Y e).

Definition is_period_marker (text : string) : bool :=
  Str.startswith text "Period this statement relates to".

(** Lines 131-133: the two dates of the period marker. *)
Definition parse_period (text : string) : result (DT.datetime * DT.datetime) :=
  part <- of_option IndexError (nth_error (Str.split text ": ") 1) ;;
  let dates := Str.split part " to " in
  d0 <- of_option IndexError (nth_error dates 0) ;;
  s <- of_option ValueError (DT.strptime d0) ;;
  d1 <- of_option IndexError (nth_error dates 1) ;;
  e <- of_option ValueError (DT.strptime d1) ;;
  Ok (s, e).

(** Lines 161-169: the loop over the candidate years of an entry date.  A
    [ValueError] of [strptime] leaves the loop. *)
Fixpoint entry_stamp (text : string) (s e : DT.datetime) (years : list Z)
  : option DT.datetime :=
  match years with
  | [] => None
  | y :: years' =>
      match DT.strptime (text ++ "." ++ Str.of_int y) with
      | None => None
      | Some timestamp =>
          if DT.leb s timestamp && DT.leb timestamp e
          then Some timestamp
          else entry_stamp text s e years'
      end
  end.

(** Lines 172-176: the loop over the candidate years of a value date.  A
    [ValueError] of [strptime] is not caught. *)
Fixpoint value_stamp (text : string) (entry : DT.datetime) (years : list Z)
  : result (option DT.datetime) :=
  match years with
  | [] => Ok None
  | y :: years' =>
      timestamp <- of_option ValueError (DT.strptime (text ++ "." ++ Str.of_int y)) ;;
      if DT.sub_days timestamp entry <? 7
      then Ok (Some timestamp)
      else value_stamp text entry years'
  end.

(** Lines 147-198: an element in one of the two date columns. *)
Definition date_column (st : State) (text : string) (left_amount : Z)
  : result State :=
  let is_entry := left_amount =? ENTRY_DATE_LEFT_POSITION in
  let range_end :=
    match time_range_end st with
    | None => time_range_start st
    | Some e => Some e
    end in
  let st := mkState (items st) (record st) (is_recording st)
                    (time_range_start st) range_end in
  if negb (match_dd_mm text) then Ok st
  else
    valid_stamp <-
      (if is_entry
       then
         s <- of_option AttributeError (time_range_start st) ;;
         e <- of_option AttributeError (time_range_end st) ;;
         Ok (entry_stamp text s e [DT.year s; DT.year e])
       else
         r <- of_option AttributeError (record st) ;;
         entry <- of_option AttributeError (entry_time r) ;;
         value_stamp text entry [DT.year entry; DT.year entry + 1]) ;;
    valid_stamp <- of_option TimestampNotAssigned valid_stamp ;;
    if is_entry
    then
      match record st with
      | None => Ok (with_record st (Some (set_entry_time new_line valid_stamp)))
      | Some r =>
          if is_complete r
          then Ok (mkState (items st ++ [r])
                           (Some (set_entry_time new_line valid_stamp))
                           (is_recording st) (time_range_start st)
                           (time_range_end st))
          else Raise IncompleteRecordNewEntry
      end
    else
      match record st with
      | None => Ok st
      | Some r =>
          match entry_time r with
          | None => Ok st
          | Some _ => Ok (with_record st (Some (set_value_time r valid_stamp)))
          end
      end.

(** Lines 200-211: an element in any other column. *)
Definition other_column (st : State) (text : string) (left_amount : Z)
  : result State :=
  match record st with
  | None => Ok st
  | Some r =>
      match value_time r with
      | None => Ok st
      | Some _ =>
          if BALANCE_MIN_LEFT_POSITION <? left_amount
          then d <- bank_currency_format_to_decimal text ;;
               Ok (with_record st (Some (set_balance r d)))
          else if CREDITED_MIN_LEFT_POSITION <? left_amount
          then d <- bank_currency_format_to_decimal text ;;
               Ok (with_record st (Some (set_credited r d)))
          else Ok (with_record st (Some (append_description r text)))
      end
  end.

(** Lines 122-124: the test for the closing balance line. *)
Definition closes (st : State) (text : string) : bool :=
  match time_range_end st with
  | Some e => is_terminator e text
  | None => false
  end.

(** Lines 121-211: the loop body for a relevant element. *)
Definition step_text (st : State) (text par_style : string) : result State :=
  if closes st text
  then Ok (mkState (items st) (record st) false
                   (time_range_start st) (time_range_end st))
  else if negb (is_recording st) && is_period_marker text
  then
    p <- parse_period text ;;
    Ok (mkState (items st) (record st) true (Some (fst p)) (Some (snd p)))
  else if negb (is_recording st) then Ok st
  else
    left_amount <- of_option NoLeftStyle (match_left_style par_style) ;;
    if (left_amount =? ENTRY_DATE_LEFT_POSITION)
       || (left_amount =? VALUE_DATE_LEFT_POSITION)
    then date_column st text left_amount
    else other_column st text left_amount.

(** One iteration of the loop over [html.find_all("p")]. *)
Definition step (st : State) (p : Paragraph) : result State :=
  match relevant p with
  | None => Ok st
  | Some (text, par_style) => step_text st text par_style
  end.

(** The whole loop. *)
Fixpoint run (st : State) (ps : list Paragraph) : result State :=
  match ps with
  | [] => Ok st
  | p :: ps' => st' <- step st p ;; run st' ps'
  end.

(** Lines 213-220: what happens to the open record after the loop. *)
Definition finish (st : State) : result (list BankItemLine) :=
  match record st with
  | None => sorted (items st)
  | Some r =>
      if is_complete r then sorted (items st ++ [r])
      else if is_some (entry_time r) then Raise IncompletePageEnd
      else sorted (items st)
  end.

Definition parse_page (page : list Paragraph) : result (list BankItemLine) :=
  st <- run initial page ;;
  finish st.

(** ** parse_doc *)

(** The loop of [parse_doc]: [items += parse_page(page)] page by page. *)
Fixpoint collect (acc : list BankItemLine) (pages : list (list Paragraph))
  : result (list BankItemLine) :=
  match pages with
  | [] => Ok acc
  | page :: pages' =>
      out <- parse_page page ;;
      collect (acc ++ out) pages'
  end.

Definition parse_doc (pages : list (list Paragraph)) : result (list BankItemLine) :=
  all <- collect [] pages ;;
  sorted all.

(** [a] may stand before [b] in a list sorted with [lt]. *)
Definition not_after {A : Type} (lt : A -> A -> bool) (a b : A) : Prop :=
  lt b a = false.

(** ** Vocabulary of the specification *)

(** A complete record: the four dates and amounts are set and the
    description is not empty. *)
Definition Complete (r : BankItemLine) : Prop :=
  entry_time r <> None /\ value_time r <> None /\ credited r <> None
  /\ balance r <> None /\ description r <> [].

(** The record has its entry date. *)
Definition has_entry (r : BankItemLine) : Prop := is_some (entry_time r) = true.

(** Every record of the list passes [is_complete]. *)
Definition items_complete (l : list BankItemLine) : Prop :=
  Forall (fun r => is_complete r = true) l.

(** The third component of [as_tuple]: [" ".join(self.description)]. *)
Definition joined_description (r : BankItemLine) : string :=
  Str.join " " (description r).

(** [a]'s entry date is not later than [b]'s. *)
Definition entry_le (a b : BankItemLine) : Prop :=
  match entry_time a, entry_time b with
  | Some x, Some y => DT.leb x y = true
  | _, _ => False
  end.

(** The record was entered on day [d]. *)
Definition entered_on (d : DT.datetime) (r : BankItemLine) : bool :=
  match entry_time r with
  | Some x => DT.eqb x d
  | None => false
  end.

(** [p] is a body-text fragment with the given text. *)
Definition body_text (p : Paragraph) (text : string) : Prop :=
  exists par_style, relevant p = Some (text, par_style).

(** [p] is a body-text fragment with the given text whose paragraph style
    puts it at the given horizontal offset. *)
Definition fragment_at (p : Paragraph) (text : string) (left_amount : Z) : Prop :=
  exists par_style,
    relevant p = Some (text, par_style)
    /\ match_left_style par_style = Some left_amount.

(** The horizontal bands. *)
Definition description_band (n : Z) : Prop :=
  n <> ENTRY_DATE_LEFT_POSITION /\ n <> VALUE_DATE_LEFT_POSITION
  /\ n <= CREDITED_MIN_LEFT_POSITION.

Definition credited_band (n : Z) : Prop :=
  CREDITED_MIN_LEFT_POSITION < n <= BALANCE_MIN_LEFT_POSITION.

Definition balance_band (n : Z) : Prop := BALANCE_MIN_LEFT_POSITION < n.

(** The style has a substring of the form [left:<integer>pt]. *)
Definition has_left_offset (style : string) : Prop :=
  exists pre ds post,
    style = pre ++ "left:" ++ ds ++ "pt" ++ post
    /\ ds <> EmptyString /\ Str.all_digits ds = true.

(** The same, decided by looking at every position. *)
Fixpoint has_left_offsetb (style : string) : bool :=
  is_some (match_left_here style) ||
  match style with
  | EmptyString => false
  | String _ rest => has_left_offsetb rest
  end.

(** A body-text fragment as the text extraction prints it. *)
Definition frag (text : string) (left_amount : Z) : Paragraph :=
  mkP (Some (mkSpan text (Some "font-family:Helvetica;font-size:9pt")))
      (Some ("top:100pt;left:" ++ Str.of_int left_amount ++ "pt")).

Definition period_2016 : Paragraph :=
  frag "Period this statement relates to: 01.09.2016 to 30.11.2016" 57.

(** *** Concrete pages *)

Definition day_2016 (m d : Z) : option DT.datetime := Some (DT.mk 2016 m d).

(** An amount with two decimals, given in hundredths. *)
Definition cents (negative : bool) (n : Z) : option Dec.Decimal :=
  Some (Dec.mk negative n (-2)).

Definition page_one : list Paragraph :=
  [ period_2016;
    frag "15.10" 57; frag "16.10" 98; frag "Transfer" 140;
    frag "100.00+" 420; frag "1,500.00+" 510 ].

Definition page_two : list Paragraph :=
  [ period_2016;
    frag "14.10" 57; frag "14.10" 98; frag "Card" 140;
    frag "20.00-" 420; frag "1,400.00+" 510;
    frag "15.10" 57; frag "17.10" 98; frag "Fee" 140;
    frag "5.00-" 420; frag "1,495.00+" 510 ].

Definition line_transfer : BankItemLine :=
  mkLine (day_2016 10 15) (day_2016 10 16) ["Transfer"]
         (cents false 10000) (cents false 150000).

Definition line_card : BankItemLine :=
  mkLine (day_2016 10 14) (day_2016 10 14) ["Card"]
         (cents true 2000) (cents false 140000).

Definition line_fee : BankItemLine :=
  mkLine (day_2016 10 15) (day_2016 10 17) ["Fee"]
         (cents true 500) (cents false 149500).

(** The state while recording the period 01.09.2016 to 30.11.2016. *)
Definition recording_2016 (finalized : list BankItemLine)
           (open_record : option BankItemLine) : State :=
  mkState finalized open_record true (day_2016 9 1) (day_2016 11 30).

(** An open record that has only its entry date. *)
Definition line_started : BankItemLine := set_entry_time new_line (DT.mk 2016 10 15).

(** *** Scenario 1 of the specification *)

Definition scenario_period : string :=
  "Period this statement relates to: 01.09.2016 to 30.11.2016".

(** The record the code builds from the scenario. *)
Definition scenario_record : BankItemLine :=
  mkLine (day_2016 10 15) (day_2016 10 16) ["Payment"; "received"]
         (Some (Dec.mk false 10000 0)) (Some (Dec.mk false 150000 (-5))).

(** The scenario at fixed offsets inside the bands. *)
Definition scenario_page : list Paragraph :=
  [ frag scenario_period 57;
    frag "15.10" 57; frag "16.10" 98; frag "Payment" 140; frag "received" 140;
    frag "100,00+" 420; frag "1.500,00+" 510 ].

(** The result the specification expects of the scenario. *)
Definition scenario_expected (out : list BankItemLine) : Prop :=
  exists r c b,
    out = [r]
    /\ entry_time r = day_2016 10 15
    /\ value_time r = day_2016 10 16
    /\ joined_description r = "Payment received"
    /\ credited r = Some c /\ (Dec.to_Q c == 100)%Q
    /\ balance r = Some b /\ (Dec.to_Q b == 1500)%Q.

(** *** Further concrete pages *)

(** The open record of Scenario 1 once its value date is known. *)
Definition line_dated : BankItemLine :=
  set_value_time line_started (DT.mk 2016 10 16).

(** A value date in January under an entry date in October. *)
Definition page_early_value : list Paragraph :=
  [ period_2016;
    frag "15.10" 57; frag "01.01" 98; frag "Payment" 140;
    frag "100.00+" 420; frag "1,500.00+" 510 ].

Definition line_early_value : BankItemLine :=
  mkLine (day_2016 10 15) (day_2016 1 1) ["Payment"]
         (cents false 10000) (cents false 150000).

(** An entry at the end of December whose value date is in January. *)
Definition page_new_year : list Paragraph :=
  [ frag "Period this statement relates to: 01.10.2016 to 31.01.2017" 57;
    frag "30.12" 57; frag "02.01" 98; frag "Payment" 140;
    frag "100.00+" 420; frag "1,500.00+" 510 ].

Definition line_new_year : BankItemLine :=
  mkLine (day_2016 12 30) (day_2016 1 2) ["Payment"]
         (cents false 10000) (cents false 150000).




(** A body-text element whose paragraph style has no [left] offset. *)
Definition unplaced (text : string) : Paragraph :=
  mkP (Some (mkSpan text (Some "font-family:Helvetica;font-size:9pt")))
      (Some "top:100pt;line-height:9pt").

(** The element is not a period marker. *)
Definition not_period_marker (p : Paragraph) : Prop :=
  forall text par_style,
    relevant p = Some (text, par_style) -> is_period_marker text = false.


From Stdlib Require DecimalPos DecimalFacts.

(** ** Further vocabulary *)

(** A character the currency decoder drops. *)
Definition dropped (c : ascii) : Prop :=
  Str.is_digit c = false /\ c <> "."%char.

(** The two dates of the record are set and related by [ok]. *)
Definition dates_related (ok : DT.datetime -> DT.datetime -> Prop)
           (r : BankItemLine) : Prop :=
  exists e v, entry_time r = Some e /\ value_time r = Some v /\ ok e v.

(** The same for a record under construction, whose value date may still
    be missing. *)
Definition dates_related_if_set (ok : DT.datetime -> DT.datetime -> Prop)
           (r : BankItemLine) : Prop :=
  match value_time r with
  | None => True
  | Some v => exists e, entry_time r = Some e /\ ok e v
  end.

(** The finalized records have their two dates related by [ok], and so has
    the open record once its value date is set. *)
Definition dates_inv (ok : DT.datetime -> DT.datetime -> Prop) (st : State) : Prop :=
  Forall (dates_related ok) (items st)
  /\ match record st with
     | None => True
     | Some r => dates_related_if_set ok r
     end.

(** The value date of the record lies less than seven days after its entry
    date (it may lie any time before it). *)
Definition value_soon (r : BankItemLine) : Prop :=
  dates_related (fun e v => DT.sub_days v e < 7) r.

(** The value date of the record lies in the calendar year of its entry
    date. *)
Definition same_year (r : BankItemLine) : Prop :=
  dates_related (fun e v => DT.year v = DT.year e) r.

(** The number two digits stand for. *)
Definition two_digits (a b : ascii) : Z :=
  10 * Str.digit_value a + Str.digit_value b.

(** The element fails the [try] block at the head of the loop: it has no
    [span], a [style] attribute is missing, or the span is not set in
    9pt. *)
Definition filtered_out (p : Paragraph) : Prop :=
  p_span p = None
  \/ p_style p = None
  \/ exists s,
      p_span p = Some s
      /\ (span_style s = None
          \/ exists span_st,
              span_style s = Some span_st
              /\ Str.contains "font-size:9pt" span_st = false).

(** A heading set in a larger font. *)
Definition heading (text : string) : Paragraph :=
  mkP (Some (mkSpan text (Some "font-family:Helvetica;font-size:14pt")))
      (Some "top:20pt;left:57pt").

(** The open record of Scenario 1 with everything but the balance. *)
Definition line_unbalanced : BankItemLine :=
  set_credited (append_description line_dated "Payment") (Dec.mk false 10000 (-2)).

(** [c in s] for a single character. *)
Fixpoint has_char (c : ascii) (s : string) : bool :=
  match s with
  | EmptyString => false
  | String a rest => Ascii.eqb a c || has_char c rest
  end.

(** The string is made of digits and periods only. *)
Fixpoint date_like (s : string) : bool :=
  match s with
  | EmptyString => true
  | String a rest => (Str.is_digit a || Ascii.eqb a ".") && date_like rest
  end.

Definition period_prefix : string := "Period this statement relates to".

(** ** as_tuple *)

(** [d.strftime("%Y/%m/%d")]; the year is printed with four digits, as
    the library documents it. *)
Definition strftime_Y_m_d (d : DT.datetime) : string :=
  Str.pad 4 (DT.year d) ++ "/" ++ Str.pad 2 (DT.month d) ++ "/" ++ Str.pad 2 (DT.day d).

(** The coefficient [c] cut to its digits above the last [shift] ones,
    rounded half to even. *)
Definition round_half_even (c shift : Z) : Z :=
  let q := c / 10 ^ shift in
  let r := c mod 10 ^ shift in
  let half := 5 * 10 ^ (shift - 1) in
  if (half <? r) || ((r =? half) && Z.odd q) then q + 1 else q.

(** The coefficient of [d] rescaled to two decimals, as the format
    specification [.2f] has it: zeros are appended to a coarser number, a
    finer one is rounded half to even. *)
Definition rescale_2 (d : Dec.Decimal) : Z :=
  if Dec.coeff d =? 0 then 0
  else if -2 <=? Dec.exp d then Dec.coeff d * 10 ^ (Dec.exp d + 2)
  else round_half_even (Dec.coeff d) (- 2 - Dec.exp d).

(** [str.format("{:.2f}", d)] for a [Decimal]: the sign, the integer part,
    a period and two decimals. *)
Definition format_2f (d : Dec.Decimal) : string :=
  let c := rescale_2 d in
  (if Dec.sign d then "-" else "")
    ++ Str.of_int (c / 100) ++ "." ++ Str.pad 2 (c mod 100).

Definition format_amount (o : option Dec.Decimal) : string :=
  match o with
  | None => "None"
  | Some d => format_2f d
  end.

(** [BankItemLine.as_tuple]; without [entry_time] the call of [strftime]
    raises AttributeError. *)
Definition as_tuple (r : BankItemLine)
  : result (string * string * string * string * string) :=
  e <- of_option AttributeError (entry_time r) ;;
  Ok (strftime_Y_m_d e, strftime_Y_m_d e, Str.join " " (description r),
      format_amount (credited r), format_amount (balance r)).

(** A numeral without leading zeros. *)
Definition canonical (s : string) : bool :=
  match s with
  | EmptyString => false
  | String "0" rest => String.eqb rest EmptyString
  | String _ _ => Str.all_digits s
  end.

(** The row [as_tuple] gives for a record with its entry date and both
    amounts. *)
Definition row_of (r : BankItemLine) (e : DT.datetime) (c b : Dec.Decimal)
  : string * string * string * string * string :=
  (strftime_Y_m_d e, strftime_Y_m_d e, joined_description r,
   format_2f c, format_2f b).

(** The record can be written as a row with both amounts as numbers. *)
Definition writable (r : BankItemLine) : Prop :=
  exists e c b,
    entry_time r = Some e /\ credited r = Some c /\ balance r = Some b
    /\ as_tuple r = Ok (row_of r e c b).

(** The state while recording the period 01.12.2015 to 01.03.2016. *)
Definition recording_winter : State :=
  mkState [] None true (Some (DT.mk 2015 12 1)) (Some (DT.mk 2016 3 1)).

(** A page whose only entry has no value date. *)
Definition page_broken : list Paragraph :=
  [ period_2016; frag "15.10" 57 ].

(** The text has a digit somewhere. *)
Fixpoint has_digit (s : string) : bool :=
  match s with
  | EmptyString => false
  | String c rest => Str.is_digit c || has_digit rest
  end.

(** The number of periods in the text. *)
Fixpoint count_periods (s : string) : nat :=
  match s with
  | EmptyString => O
  | String c rest => ((if Ascii.eqb c "." then 1 else 0) + count_periods rest)%nat
  end.

(** The text can be decoded as an amount: it has a digit, at most one
    period, and ends in a sign. *)
Definition decodable (text : string) : Prop :=
  has_digit text = true
  /\ (count_periods text <= 1)%nat
  /\ (Str.endswith text "+" = true \/ Str.endswith text "-" = true).

(** [time_range_start <= t <= time_range_end] *)
Definition in_period (s e t : DT.datetime) : bool := DT.leb s t && DT.leb t e.

(** The entry-date text resolves to a date within the period from [s] to
    [e], as lines 161-169 go about it: with the year of [s] the text is a
    date, and either that date lies within the period, or the text is a
    date with the year of [e] too and that date lies within the period. *)
Definition entry_resolves (text : string) (s e : DT.datetime) : Prop :=
  exists t1,
    DT.strptime (text ++ "." ++ Str.of_int (DT.year s)) = Some t1
    /\ (in_period s e t1 = true
        \/ exists t2,
            DT.strptime (text ++ "." ++ Str.of_int (DT.year e)) = Some t2
            /\ in_period s e t2 = true).


(** The state while recording the period 01.12.2015 to 01.03.2016 with an
    open record that has only its entry date. *)
Definition recording_winter_open : State :=
  mkState [] (Some (set_entry_time new_line (DT.mk 2015 12 20))) true
          (Some (DT.mk 2015 12 1)) (Some (DT.mk 2016 3 1)).

(** * Properties *)

(** ** The library models on known values *)

Example split_period :
  Str.split "Period this statement relates to: 01.09.2016 to 30.11.2016" ": "
  = ["Period this statement relates to"; "01.09.2016 to 30.11.2016"].
Proof. reflexivity. Qed.

Example split_overlap : Str.split "aXXXb" "XX" = ["a"; "Xb"].
Proof. reflexivity. Qed.

Example pad_year : Str.pad 4 987 = "0987" /\ Str.pad 2 11 = "11".
Proof. split; reflexivity. Qed.

Example strptime_ok :
  DT.strptime "15.10.2016" = Some (DT.mk 2016 10 15)
  /\ DT.strptime "1.9.2016" = Some (DT.mk 2016 9 1)
  /\ DT.strptime "29.02.2016" = Some (DT.mk 2016 2 29).
Proof. repeat split; reflexivity. Qed.

Example strptime_bad :
  DT.strptime "48.00.2016" = None
  /\ DT.strptime "29.02.2015" = None
  /\ DT.strptime "31.12.10000" = None
  /\ DT.strptime "01.01.0000" = None
  /\ DT.strptime "01.01.999" = None.
Proof. repeat split; reflexivity. Qed.

Example toordinal_known :
  DT.toordinal (DT.mk 1 1 1) = 1
  /\ DT.toordinal (DT.mk 2016 10 15) = 736252
  /\ DT.toordinal (DT.mk 2017 1 1) - DT.toordinal (DT.mk 2016 12 31) = 1.
Proof. repeat split; reflexivity. Qed.

Example strftime_known :
  DT.strftime_d_m_Y (DT.mk 2016 11 30) = "30. 11. 2016".
Proof. reflexivity. Qed.

Example decimal_strings :
  Dec.of_string "10000" = Some (Dec.mk false 10000 0)
  /\ Dec.of_string "1.50000" = Some (Dec.mk false 150000 (-5))
  /\ Dec.of_string ".5" = Some (Dec.mk false 5 (-1))
  /\ Dec.of_string "5." = Some (Dec.mk false 5 0)
  /\ Dec.of_string "" = None
  /\ Dec.of_string "." = None
  /\ Dec.of_string "1.2.3" = None.
Proof. repeat split; reflexivity. Qed.

Example decimal_rounding :
  Dec.mul_one (Dec.mk false 1234567890123456789012345678951 0)
  = Dec.mk false 1234567890123456789012345679 3.
Proof. reflexivity. Qed.

Example currency_examples :
  bank_currency_format_to_decimal "100.00+" = Ok (Dec.mk false 10000 (-2))
  /\ bank_currency_format_to_decimal "1,500.00-" = Ok (Dec.mk true 150000 (-2))
  /\ bank_currency_format_to_decimal "100,00+" = Ok (Dec.mk false 10000 0)
  /\ bank_currency_format_to_decimal "50,00" = Raise UnknownEndCharacter
  /\ bank_currency_format_to_decimal "+" = Raise InvalidOperation.
Proof. repeat split; reflexivity. Qed.

Example left_style_examples :
  match_left_style "top:120pt;left:57pt;line-height:9pt" = Some 57
  /\ match_left_style "left:5pt;margin-left:490pt" = Some 490
  /\ match_left_style "left:57px" = None
  /\ match_left_style "left:pt" = None
  /\ match_left_style (String Str.newline "left:57pt") = None.
Proof. repeat split; reflexivity. Qed.

Example dd_mm_examples :
  match_dd_mm "15.10" = true /\ match_dd_mm "48.00" = true
  /\ match_dd_mm "15.10." = false /\ match_dd_mm "1.10" = false
  /\ match_dd_mm "Date" = false.
Proof. repeat split; reflexivity. Qed.



(** ** The stable sort *)

Section StableSortFacts.

Context {A : Type}.
Variable lt : A -> A -> bool.

Lemma insert_perm (x : A) (l : list A) : Permutation (x :: l) (insert lt x l).
Proof.
  induction l as [|y l IH]; simpl.
  - apply Permutation_refl.
  - destruct (lt y x).
    + eapply perm_trans; [apply perm_swap|].
      now apply perm_skip.
    + apply Permutation_refl.
Qed.

Lemma stable_sort_perm (l : list A) : Permutation l (stable_sort lt l).
Proof.
  induction l as [|x l IH]; simpl.
  - constructor.
  - eapply perm_trans; [apply perm_skip, IH|apply insert_perm].
Qed.

(** The elements the order is used on. *)
Variable dom : A -> Prop.
Hypothesis lt_asym :
  forall a b, dom a -> dom b -> lt a b = true -> lt b a = false.
Hypothesis not_after_trans :
  forall a b c, dom a -> dom b -> dom c ->
                not_after lt a b -> not_after lt b c -> not_after lt a c.

Lemma insert_sorted (x : A) (l : list A) :
  dom x -> Forall dom l ->
  StronglySorted (not_after lt) l -> StronglySorted (not_after lt) (insert lt x l).
Proof.
  intros Hx Hl Hs.
  induction l as [|y l IH]; simpl.
  - repeat constructor.
  - apply StronglySorted_inv in Hs as [Hs Hy].
    inversion Hl as [|? ? Hdy Hdl]; subst.
    destruct (lt y x) eqn:E.
    + constructor; [now apply IH|].
      apply (Permutation_Forall (insert_perm x l)).
      constructor; [|exact Hy].
      now apply lt_asym.
    + constructor; [now constructor|].
      constructor; [exact E|].
      rewrite Forall_forall in Hy, Hdl |- *.
      intros z Hz.
      apply (not_after_trans x y z); auto.
Qed.

Lemma stable_sort_sorted (l : list A) :
  Forall dom l -> StronglySorted (not_after lt) (stable_sort lt l).
Proof.
  induction 1 as [|x l Hx Hl IH]; simpl.
  - constructor.
  - apply insert_sorted; auto.
    now apply (Permutation_Forall (stable_sort_perm l)).
Qed.

(** Stability: a class [p] of elements none of which is smaller than
    another keeps its order. *)
Variable p : A -> bool.
Hypothesis p_class : forall a b, p a = true -> p b = true -> lt a b = false.

Lemma insert_filter (x : A) (l : list A) :
  filter p (insert lt x l) = filter p (x :: l).
Proof.
  induction l as [|y l IH]; simpl; [reflexivity|].
  destruct (lt y x) eqn:E; simpl; [|reflexivity].
  rewrite IH. simpl.
  destruct (p x) eqn:Px, (p y) eqn:Py; try reflexivity.
  rewrite (p_class y x Py Px) in E. discriminate.
Qed.

Lemma stable_sort_filter (l : list A) :
  filter p (stable_sort lt l) = filter p l.
Proof.
  induction l as [|x l IH]; simpl; [reflexivity|].
  rewrite insert_filter. simpl. now rewrite IH.
Qed.

End StableSortFacts.

(** ** Order of dates *)

Ltac dt_cases :=
  repeat match goal with
         | d : DT.datetime |- _ => destruct d
         end;
  unfold DT.leb, DT.ltb, DT.eqb in *; simpl in *;
  repeat match goal with
         | |- context [?x <? ?y] => destruct (Z.ltb_spec x y)
         | |- context [?x =? ?y] => destruct (Z.eqb_spec x y)
         | H : context [?x <? ?y] |- _ => destruct (Z.ltb_spec x y)
         | H : context [?x =? ?y] |- _ => destruct (Z.eqb_spec x y)
         end;
  simpl in *; try reflexivity; try discriminate; try lia.

Lemma dt_ltb_asym (a b : DT.datetime) : DT.ltb a b = true -> DT.ltb b a = false.
Proof. intros H. dt_cases. Qed.

Lemma dt_ltb_false_trans (a b c : DT.datetime) :
  DT.ltb b a = false -> DT.ltb c b = false -> DT.ltb c a = false.
Proof. intros H1 H2. dt_cases. Qed.

Lemma dt_ltb_false_leb (a b : DT.datetime) : DT.ltb b a = false -> DT.leb a b = true.
Proof. intros H. dt_cases. Qed.

Lemma dt_eqb_eq (a b : DT.datetime) : DT.eqb a b = true -> a = b.
Proof. intros H. dt_cases. f_equal; lia. Qed.

Lemma dt_ltb_irrefl (a : DT.datetime) : DT.ltb a a = false.
Proof. dt_cases. Qed.

(** ** The error monad *)

Lemma bind_ok {A B : Type} (r : result A) (k : A -> result B) (b : B) :
  bind r k = Ok b -> exists a, r = Ok a /\ k a = Ok b.
Proof. destruct r as [a|e]; simpl; intros H; [eauto|discriminate]. Qed.

Lemma of_option_ok {A : Type} (e : error) (o : option A) (a : A) :
  of_option e o = Ok a -> o = Some a.
Proof. destruct o; simpl; intros H; [now inversion H|discriminate]. Qed.

Ltac inv_bind H :=
  let a := fresh "a" in
  let Ha := fresh "Ha" in
  apply bind_ok in H as (a & Ha & H).

Lemma run_app (st : State) (ps qs : list Paragraph) :
  run st (ps ++ qs) = (st' <- run st ps ;; run st' qs).
Proof.
  revert st. induction ps as [|p ps IH]; intros st; simpl; [reflexivity|].
  destruct (step st p) as [st1|e]; simpl; [apply IH|reflexivity].
Qed.

(** ** Completeness of records *)

Lemma is_complete_Complete (r : BankItemLine) :
  is_complete r = true <-> Complete r.
Proof.
  unfold is_complete, Complete.
  destruct r as [[e|] [v|] [|t d] [c|] [b|]]; simpl;
    (split; [intros H; try discriminate; repeat split; discriminate
            |intros (H1 & H2 & H3 & H4 & H5); try reflexivity; congruence]).
Qed.

Lemma is_complete_entry (r : BankItemLine) :
  is_complete r = true -> is_some (entry_time r) = true.
Proof. unfold is_complete. destruct (entry_time r); simpl; auto. Qed.

(** ** sorted *)

Lemma sorted_entries (l : list BankItemLine) :
  Forall has_entry l -> sorted l = Ok (stable_sort line_ltb l).
Proof.
  intros H. unfold sorted.
  destruct l as [|x [|y l]]; try reflexivity.
  cbn [List.length Nat.leb].
  assert (E : forallb (fun r => is_some (entry_time r)) (x :: y :: l) = true)
    by (apply forallb_forall; rewrite Forall_forall in H; exact H).
  now rewrite E.
Qed.

Lemma sorted_perm (l out : list BankItemLine) :
  sorted l = Ok out -> Permutation l out.
Proof.
  unfold sorted. destruct (List.length l <=? 1)%nat.
  - intros H; inversion H; apply Permutation_refl.
  - destruct (forallb _ l); intros H; inversion H.
    apply stable_sort_perm.
Qed.

Lemma line_ltb_asym (a b : BankItemLine) :
  has_entry a -> has_entry b -> line_ltb a b = true -> line_ltb b a = false.
Proof.
  unfold has_entry, line_ltb, line_lt.
  destruct (entry_time a), (entry_time b); simpl; try discriminate.
  intros _ _. apply dt_ltb_asym.
Qed.

Lemma line_not_after_trans (a b c : BankItemLine) :
  has_entry a -> has_entry b -> has_entry c ->
  not_after line_ltb a b -> not_after line_ltb b c -> not_after line_ltb a c.
Proof.
  unfold has_entry, not_after, line_ltb, line_lt.
  destruct (entry_time a), (entry_time b), (entry_time c); simpl; try discriminate.
  intros _ _ _ H1 H2. eapply dt_ltb_false_trans; eauto.
Qed.

Lemma entered_on_class (d : DT.datetime) (a b : BankItemLine) :
  entered_on d a = true -> entered_on d b = true -> line_ltb a b = false.
Proof.
  unfold entered_on, line_ltb, line_lt.
  destruct (entry_time a), (entry_time b); simpl; try discriminate.
  intros Ha Hb. apply dt_eqb_eq in Ha, Hb. subst. apply dt_ltb_irrefl.
Qed.

Lemma not_after_entry_le (a b : BankItemLine) :
  has_entry a -> has_entry b -> not_after line_ltb a b -> entry_le a b.
Proof.
  unfold has_entry, not_after, line_ltb, line_lt, entry_le.
  destruct (entry_time a), (entry_time b); simpl; try discriminate.
  intros _ _. apply dt_ltb_false_leb.
Qed.

Lemma StronglySorted_on {A : Type} (R S : A -> A -> Prop) (dom : A -> Prop)
      (l : list A) :
  (forall a b, dom a -> dom b -> R a b -> S a b) ->
  Forall dom l -> StronglySorted R l -> StronglySorted S l.
Proof.
  intros HRS Hd Hs.
  induction Hs as [|a l Hs IH Ha]; [constructor|].
  inversion Hd as [|? ? Hda Hdl]; subst.
  constructor; [auto|].
  rewrite Forall_forall in Ha, Hdl |- *.
  intros b Hb. apply HRS; auto.
Qed.

(** What [sorted] returns on records that all have their entry date. *)
Lemma sorted_spec (l : list BankItemLine) :
  Forall has_entry l ->
  exists out,
    sorted l = Ok out
    /\ Permutation l out
    /\ StronglySorted entry_le out
    /\ forall d, filter (entered_on d) out = filter (entered_on d) l.
Proof.
  intros H. exists (stable_sort line_ltb l).
  split; [now apply sorted_entries|].
  split; [apply stable_sort_perm|].
  split.
  - apply (StronglySorted_on (not_after line_ltb) entry_le has_entry).
    + apply not_after_entry_le.
    + apply (Permutation_Forall (stable_sort_perm line_ltb l)), H.
    + apply stable_sort_sorted with (dom := has_entry); auto.
      * apply line_ltb_asym.
      * apply line_not_after_trans.
  - intros d. apply stable_sort_filter. apply entered_on_class.
Qed.

(** ** The invariant of the loop: every finalized record is complete *)

Lemma other_column_items (st st' : State) (text : string) (n : Z) :
  other_column st text n = Ok st' -> items st' = items st.
Proof.
  unfold other_column. intros H.
  destruct (record st) as [r|]; [|now inversion H].
  destruct (value_time r); [|now inversion H].
  destruct (BALANCE_MIN_LEFT_POSITION <? n).
  { inv_bind H. inversion H; subst; auto. }
  destruct (CREDITED_MIN_LEFT_POSITION <? n).
  { inv_bind H. inversion H; subst; auto. }
  inversion H; subst; auto.
Qed.

Lemma date_column_items (st st' : State) (text : string) (n : Z) :
  date_column st text n = Ok st' ->
  items_complete (items st) -> items_complete (items st').
Proof.
  unfold date_column. intros H Hc.
  destruct (match_dd_mm text); cbn [negb] in H; [|now inversion H].
  inv_bind H. inv_bind H. cbn [record items] in H.
  destruct (n =? ENTRY_DATE_LEFT_POSITION).
  - destruct (record st) as [r|]; [|now inversion H].
    destruct (is_complete r) eqn:E; [|discriminate].
    inversion H; subst; cbn [items].
    apply Forall_app; split; [exact Hc|]. now constructor.
  - destruct (record st) as [r|]; [|now inversion H].
    destruct (entry_time r); inversion H; subst; auto.
Qed.

Lemma step_text_items (st st' : State) (text par_style : string) :
  step_text st text par_style = Ok st' ->
  items_complete (items st) -> items_complete (items st').
Proof.
  unfold step_text. intros H Hc.
  destruct (closes st text).
  { inversion H; subst; auto. }
  destruct (negb (is_recording st) && is_period_marker text).
  { inv_bind H. inversion H; subst; auto. }
  destruct (negb (is_recording st)).
  { inversion H; subst; auto. }
  inv_bind H.
  destruct ((a =? ENTRY_DATE_LEFT_POSITION) || (a =? VALUE_DATE_LEFT_POSITION)).
  - eapply date_column_items; eauto.
  - apply other_column_items in H. now rewrite H.
Qed.

Lemma step_items (st st' : State) (p : Paragraph) :
  step st p = Ok st' ->
  items_complete (items st) -> items_complete (items st').
Proof.
  unfold step. destruct (relevant p) as [[text ps]|].
  - apply step_text_items.
  - intros H; inversion H; subst; auto.
Qed.

Lemma run_items (ps : list Paragraph) (st st' : State) :
  run st ps = Ok st' ->
  items_complete (items st) -> items_complete (items st').
Proof.
  revert st. induction ps as [|p ps IH]; intros st H Hc; simpl in H.
  - inversion H; subst; auto.
  - inv_bind H. eapply IH; eauto. eapply step_items; eauto.
Qed.

(** The records that [finish] hands to [sorted]. *)
Lemma finish_cases (st : State) :
  finish st = Raise IncompletePageEnd
  \/ finish st = sorted (items st)
  \/ exists r, record st = Some r /\ is_complete r = true
               /\ finish st = sorted (items st ++ [r]).
Proof.
  unfold finish. destruct (record st) as [r|]; [|auto].
  destruct (is_complete r) eqn:E; [right; right; eauto|].
  destruct (is_some (entry_time r)); auto.
Qed.

Lemma finish_complete (st : State) (out : list BankItemLine) :
  items_complete (items st) -> finish st = Ok out -> items_complete out.
Proof.
  intros Hc H.
  destruct (finish_cases st) as [E|[E|(r & _ & Er & E)]]; rewrite E in H.
  - discriminate.
  - apply sorted_perm in H. eapply Permutation_Forall; eauto.
  - apply sorted_perm in H. eapply Permutation_Forall; eauto.
    apply Forall_app; split; [exact Hc|]. now constructor.
Qed.

Lemma parse_page_complete (page : list Paragraph) (out : list BankItemLine) :
  parse_page page = Ok out -> items_complete out.
Proof.
  unfold parse_page. intros H. inv_bind H.
  eapply finish_complete; eauto.
  eapply run_items; eauto. constructor.
Qed.

Lemma collect_complete (pages : list (list Paragraph))
      (acc out : list BankItemLine) :
  collect acc pages = Ok out -> items_complete acc -> items_complete out.
Proof.
  revert acc. induction pages as [|page pages IH]; intros acc H Hc; simpl in H.
  - inversion H; subst; auto.
  - inv_bind H. eapply IH; eauto.
    apply Forall_app; split; [exact Hc|].
    eapply parse_page_complete; eauto.
Qed.

Lemma items_complete_Complete (l : list BankItemLine) :
  items_complete l -> Forall Complete l.
Proof.
  unfold items_complete. apply Forall_impl. intros r. apply is_complete_Complete.
Qed.

Lemma items_complete_entries (l : list BankItemLine) :
  items_complete l -> Forall has_entry l.
Proof.
  unfold items_complete. apply Forall_impl. intros r. apply is_complete_entry.
Qed.

Lemma parse_doc_complete (pages : list (list Paragraph)) (out : list BankItemLine) :
  parse_doc pages = Ok out -> Forall Complete out.
Proof.
  unfold parse_doc. intros H. inv_bind H.
  apply items_complete_Complete.
  apply sorted_perm in H. eapply Permutation_Forall; eauto.
  eapply collect_complete; eauto. constructor.
Qed.

(** C1. Whenever [parse_page] returns a list of records (no exception has
    left it), every record of that list is complete: [entry_time],
    [value_time], [credited] and [balance] are set and [description] is not
    empty.  An incomplete record never reaches the output. *)
Theorem output_records_complete (page : list Paragraph) (out : list BankItemLine) :
  parse_page page = Ok out -> Forall Complete out.
Proof.
  intros H. apply items_complete_Complete.
  eapply parse_page_complete; eauto.
Qed.

Lemma output_records_complete_witness :
  parse_page page_two = Ok [line_card; line_fee]
  /\ Forall Complete [line_card; line_fee].
Proof.
  split; [vm_compute; reflexivity|].
  apply (output_records_complete page_two). vm_compute. reflexivity.
Defined.

(** ** parse_doc *)

Lemma collect_concat (pages : list (list Paragraph))
      (outs : list (list BankItemLine)) (acc : list BankItemLine) :
  Forall2 (fun page o => parse_page page = Ok o) pages outs ->
  collect acc pages = Ok (acc ++ List.concat outs)%list.
Proof.
  intros H. revert acc.
  induction H as [|page o pages outs Hp _ IH]; intros acc; simpl.
  - now rewrite app_nil_r.
  - rewrite Hp. simpl. rewrite IH. now rewrite app_assoc.
Qed.

(** C7. When every page parses, [parse_doc] returns the concatenation of
    the per-page results sorted by entry date alone, stably: the result is
    a rearrangement of the concatenation, entry dates never decrease along
    it, and for every day the records entered on that day stand in the
    order they have in the concatenation. *)
Theorem parse_doc_sorted_stable (pages : list (list Paragraph))
        (outs : list (list BankItemLine)) :
  Forall2 (fun page o => parse_page page = Ok o) pages outs ->
  exists out,
    parse_doc pages = Ok out
    /\ Permutation (List.concat outs) out
    /\ StronglySorted entry_le out
    /\ forall d, filter (entered_on d) out = filter (entered_on d) (List.concat outs).
Proof.
  intros H.
  assert (Hc : items_complete (List.concat outs)).
  { clear -H. induction H as [|page o pages outs Hp _ IH]; simpl.
    - constructor.
    - apply Forall_app; split; [|exact IH].
      eapply parse_page_complete; eauto. }
  destruct (sorted_spec (List.concat outs) (items_complete_entries _ Hc))
    as (out & Hs & Hperm & Hsorted & Hstable).
  exists out. repeat split; auto.
  unfold parse_doc. rewrite (collect_concat pages outs [] H). exact Hs.
Qed.

Lemma parse_doc_sorted_stable_witness :
  Forall2 (fun page o => parse_page page = Ok o)
          [page_one; page_two] [[line_transfer]; [line_card; line_fee]]
  /\ parse_doc [page_one; page_two] = Ok [line_card; line_transfer; line_fee]
  /\ exists out,
      parse_doc [page_one; page_two] = Ok out
      /\ Permutation (List.concat [[line_transfer]; [line_card; line_fee]]) out
      /\ StronglySorted entry_le out
      /\ forall d, filter (entered_on d) out
                   = filter (entered_on d)
                            (List.concat [[line_transfer]; [line_card; line_fee]]).
Proof.
  assert (H : Forall2 (fun page o => parse_page page = Ok o)
                      [page_one; page_two] [[line_transfer]; [line_card; line_fee]]).
  { repeat constructor; vm_compute; reflexivity. }
  split; [exact H|].
  split; [vm_compute; reflexivity|].
  exact (parse_doc_sorted_stable _ _ H).
Defined.

(** ** The end of the page *)

Lemma date_column_record_entered (st st' : State) (text : string) (n : Z) :
  date_column st text n = Ok st' ->
  (forall r, record st = Some r -> has_entry r) ->
  forall r, record st' = Some r -> has_entry r.
Proof.
  unfold date_column. intros H Hr.
  destruct (match_dd_mm text); cbn [negb] in H;
    [|inversion H; subst; exact Hr].
  inv_bind H. inv_bind H. cbn [record items] in H.
  destruct (n =? ENTRY_DATE_LEFT_POSITION).
  - destruct (record st) as [r0|].
    + destruct (is_complete r0); [|discriminate].
      inversion H; subst; cbn [record]. intros r E; inversion E; reflexivity.
    + inversion H; subst; cbn [record with_record].
      intros r E; inversion E; reflexivity.
  - destruct (record st) as [r0|];
      [|inversion H; subst; cbn [record]; intros r E; discriminate E].
    destruct (entry_time r0) eqn:Ee.
    + inversion H; subst; cbn [record with_record].
      intros r E; inversion E; subst. unfold has_entry. cbn. now rewrite Ee.
    + inversion H; subst; cbn [record]. exact Hr.
Qed.

Lemma other_column_record_entered (st st' : State) (text : string) (n : Z) :
  other_column st text n = Ok st' ->
  (forall r, record st = Some r -> has_entry r) ->
  forall r, record st' = Some r -> has_entry r.
Proof.
  unfold other_column. intros H Hr.
  destruct (record st) as [r0|] eqn:E0;
    [|inversion H; subst; rewrite E0; discriminate].
  specialize (Hr r0 eq_refl). unfold has_entry in *.
  destruct (value_time r0);
    [|inversion H; subst; rewrite E0; intros r E; inversion E; subst; exact Hr].
  destruct (BALANCE_MIN_LEFT_POSITION <? n).
  { inv_bind H. inversion H; subst; cbn. intros r E; inversion E; subst. exact Hr. }
  destruct (CREDITED_MIN_LEFT_POSITION <? n).
  { inv_bind H. inversion H; subst; cbn. intros r E; inversion E; subst. exact Hr. }
  inversion H; subst; cbn. intros r E; inversion E; subst. exact Hr.
Qed.

Lemma step_record_entered (st st' : State) (p : Paragraph) :
  step st p = Ok st' ->
  (forall r, record st = Some r -> has_entry r) ->
  forall r, record st' = Some r -> has_entry r.
Proof.
  unfold step. destruct (relevant p) as [[text ps]|];
    [|intros H; inversion H; subst; auto].
  unfold step_text. intros H Hr.
  destruct (closes st text).
  { inversion H; subst. exact Hr. }
  destruct (negb (is_recording st) && is_period_marker text).
  { inv_bind H. inversion H; subst. exact Hr. }
  destruct (negb (is_recording st)).
  { inversion H; subst. exact Hr. }
  inv_bind H.
  destruct ((a =? ENTRY_DATE_LEFT_POSITION) || (a =? VALUE_DATE_LEFT_POSITION)).
  - eapply date_column_record_entered; eauto.
  - eapply other_column_record_entered; eauto.
Qed.

(** The open record of a run always has its entry date. *)
Lemma run_record_entered (ps : list Paragraph) (st st' : State) :
  run st ps = Ok st' ->
  (forall r, record st = Some r -> has_entry r) ->
  forall r, record st' = Some r -> has_entry r.
Proof.
  revert st. induction ps as [|p ps IH]; intros st H Hr; simpl in H.
  - inversion H; subst. exact Hr.
  - inv_bind H. eapply IH; eauto. eapply step_record_entered; eauto.
Qed.

(** C8. Let the loop of [parse_page] end in the state [st].  Without an
    open record the page finishes normally and returns the finalized
    records, sorted.  With a complete open record that record is appended
    to the finalized records, and the page returns them, sorted.  With an
    incomplete open record that has its [entry_time] the page raises "Page
    ended on incomplete record".  An incomplete open record without
    [entry_time] makes no error: the finalized records are returned without
    it; the loop itself never ends with such a record, so this branch is
    stated for any state whose finalized records are complete. *)
Theorem end_of_page (page : list Paragraph) (st : State) :
  run initial page = Ok st ->
  (record st = None ->
   parse_page page = Ok (stable_sort line_ltb (items st)))
  /\ (forall r, record st = Some r -> is_complete r = true ->
                parse_page page = Ok (stable_sort line_ltb (items st ++ [r])))
  /\ (forall r, record st = Some r -> is_complete r = false ->
                entry_time r <> None ->
                parse_page page = Raise IncompletePageEnd)
  /\ (forall r, record st = Some r -> entry_time r <> None)
  /\ (forall st' r, items_complete (items st') ->
                    record st' = Some r -> is_complete r = false ->
                    entry_time r = None ->
                    finish st' = Ok (stable_sort line_ltb (items st'))).
Proof.
  intros Hrun.
  assert (Hc : items_complete (items st))
    by (eapply run_items; eauto; constructor).
  assert (Hp : parse_page page = finish st)
    by (unfold parse_page; now rewrite Hrun).
  rewrite Hp. unfold finish.
  split; [|split; [|split; [|split]]].
  - intros ->. apply sorted_entries. now apply items_complete_entries.
  - intros r -> Hr. rewrite Hr. apply sorted_entries.
    apply items_complete_entries.
    apply Forall_app; split; [exact Hc|]. now constructor.
  - intros r -> -> He. destruct (entry_time r); [reflexivity|congruence].
  - intros r Hr He.
    assert (H : has_entry r).
    { eapply (run_record_entered page initial st Hrun); eauto.
      cbn. discriminate. }
    unfold has_entry in H. rewrite He in H. discriminate H.
  - intros st' r Hc' -> -> ->. cbn [is_some].
    apply sorted_entries. now apply items_complete_entries.
Qed.

Lemma end_of_page_witness :
  parse_page [heading "Account statement"] = Ok []
  /\ parse_page page_two = Ok [line_card; line_fee]
  /\ parse_page page_broken = Raise IncompletePageEnd
  /\ finish (recording_2016 [line_fee; line_card] (Some new_line))
     = Ok [line_card; line_fee].
Proof.
  split; [|split; [|split]].
  - apply (proj1 (end_of_page [heading "Account statement"] initial eq_refl)).
    reflexivity.
  - apply (proj1 (proj2 (end_of_page page_two
                           (recording_2016 [line_card] (Some line_fee)) eq_refl))
                 line_fee); reflexivity.
  - apply (proj1 (proj2 (proj2 (end_of_page page_broken
                                   (recording_2016 [] (Some line_started)) eq_refl)))
                 line_started); [reflexivity|reflexivity|discriminate].
  - apply (proj2 (proj2 (proj2 (proj2 (end_of_page [] initial eq_refl))))
                 (recording_2016 [line_fee; line_card] (Some new_line)) new_line);
      try reflexivity.
    repeat constructor.
Defined.

(** ** One element of the page *)

Lemma step_relevant (st : State) (p : Paragraph) (text par_style : string) :
  relevant p = Some (text, par_style) -> step st p = step_text st text par_style.
Proof. unfold step. now intros ->. Qed.

Lemma run_cons_ok (st st' : State) (p : Paragraph) (ps : list Paragraph) :
  step st p = Ok st' -> run st (p :: ps) = run st' ps.
Proof. simpl. now intros ->. Qed.

(** A text cannot begin with both markers. *)
Lemma period_not_terminator (text : string) (e : DT.datetime) :
  is_period_marker text = true -> is_terminator e text = false.
Proof.
  unfold is_period_marker, is_terminator, Str.startswith.
  destruct text as [|c text]; [discriminate|].
  cbn [append prefix].
  destruct (ascii_dec "P" c) as [<-|]; intros H; [|discriminate H].
  destruct (ascii_dec "B" "P") as [E|]; [discriminate E|reflexivity].
Qed.

(** While recording, an element that is not the terminator is classified
    by its offset alone. *)
Lemma step_text_recording (st : State) (text par_style : string) (n : Z) :
  is_recording st = true ->
  closes st text = false ->
  match_left_style par_style = Some n ->
  step_text st text par_style
  = if (n =? ENTRY_DATE_LEFT_POSITION) || (n =? VALUE_DATE_LEFT_POSITION)
    then date_column st text n
    else other_column st text n.
Proof.
  unfold step_text. intros -> -> ->. reflexivity.
Qed.

Lemma band_not_date (n : Z) :
  description_band n \/ credited_band n \/ balance_band n ->
  (n =? ENTRY_DATE_LEFT_POSITION) || (n =? VALUE_DATE_LEFT_POSITION) = false.
Proof.
  unfold description_band, credited_band, balance_band,
    ENTRY_DATE_LEFT_POSITION, VALUE_DATE_LEFT_POSITION,
    CREDITED_MIN_LEFT_POSITION, BALANCE_MIN_LEFT_POSITION.
  intros H.
  destruct (Z.eqb_spec n 57), (Z.eqb_spec n 98); simpl; try reflexivity; lia.
Qed.

Lemma other_column_description (st : State) (r : BankItemLine) (text : string) (n : Z) :
  record st = Some r -> value_time r <> None -> description_band n ->
  other_column st text n = Ok (with_record st (Some (append_description r text))).
Proof.
  unfold other_column, description_band,
    CREDITED_MIN_LEFT_POSITION, BALANCE_MIN_LEFT_POSITION.
  intros -> Hv (_ & _ & Hn).
  destruct (value_time r); [|congruence].
  destruct (Z.ltb_spec 490 n); [lia|].
  destruct (Z.ltb_spec 390 n); [lia|reflexivity].
Qed.

Lemma other_column_credited (st : State) (r : BankItemLine) (text : string) (n : Z) :
  record st = Some r -> value_time r <> None -> credited_band n ->
  other_column st text n
  = (d <- bank_currency_format_to_decimal text ;;
     Ok (with_record st (Some (set_credited r d)))).
Proof.
  unfold other_column, credited_band,
    CREDITED_MIN_LEFT_POSITION, BALANCE_MIN_LEFT_POSITION.
  intros -> Hv Hn.
  destruct (value_time r); [|congruence].
  destruct (Z.ltb_spec 490 n); [lia|].
  destruct (Z.ltb_spec 390 n); [reflexivity|lia].
Qed.

Lemma other_column_balance (st : State) (r : BankItemLine) (text : string) (n : Z) :
  record st = Some r -> value_time r <> None -> balance_band n ->
  other_column st text n
  = (d <- bank_currency_format_to_decimal text ;;
     Ok (with_record st (Some (set_balance r d)))).
Proof.
  unfold other_column, balance_band, BALANCE_MIN_LEFT_POSITION.
  intros -> Hv Hn.
  destruct (value_time r); [|congruence].
  destruct (Z.ltb_spec 490 n); [reflexivity|lia].
Qed.

(** An element in a band other than the date columns, while recording. *)
Lemma step_other_band (st : State) (p : Paragraph) (text : string) (n : Z) :
  is_recording st = true ->
  closes st text = false ->
  fragment_at p text n ->
  description_band n \/ credited_band n \/ balance_band n ->
  step st p = other_column st text n.
Proof.
  intros Hrec Hc (ps & Hrel & Hleft) Hband.
  rewrite (step_relevant _ _ _ _ Hrel).
  rewrite (step_text_recording _ _ _ n Hrec Hc Hleft).
  now rewrite (band_not_date n Hband).
Qed.

(** An element in one of the two date columns, while recording. *)
Lemma step_date_column (st : State) (p : Paragraph) (text : string) (n : Z) :
  is_recording st = true ->
  closes st text = false ->
  fragment_at p text n ->
  n = ENTRY_DATE_LEFT_POSITION \/ n = VALUE_DATE_LEFT_POSITION ->
  step st p = date_column st text n.
Proof.
  intros Hrec Hc (ps & Hrel & Hleft) Hn.
  rewrite (step_relevant _ _ _ _ Hrel).
  rewrite (step_text_recording _ _ _ n Hrec Hc Hleft).
  destruct Hn as [-> | ->]; reflexivity.
Qed.

(** ** Scenario 1 *)

Lemma fragment_at_frag (text : string) (n : Z) (k : Z) :
  match_left_style ("top:100pt;left:" ++ Str.of_int n ++ "pt") = Some k ->
  fragment_at (frag text n) text k.
Proof. intros H. eexists. split; [reflexivity|exact H]. Qed.

Ltac date_step H :=
  match goal with
  | |- step ?st ?p = _ =>
      match type of H with
      | fragment_at _ ?text ?n =>
          first [ rewrite (step_date_column st p text n eq_refl eq_refl H
                                            (or_introl eq_refl))
                | rewrite (step_date_column st p text n eq_refl eq_refl H
                                            (or_intror eq_refl)) ]
      end
  end.

Ltac band_step H Hband :=
  match goal with
  | |- step ?st ?p = _ =>
      match type of H with
      | fragment_at _ ?text ?n =>
          first [ rewrite (step_other_band st p text n eq_refl eq_refl H
                                           (or_introl Hband))
                | rewrite (step_other_band st p text n eq_refl eq_refl H
                                           (or_intror (or_introl Hband)))
                | rewrite (step_other_band st p text n eq_refl eq_refl H
                                           (or_intror (or_intror Hband))) ]
      end
  end.

Ltac column_step lem r Hband :=
  match goal with
  | |- other_column ?st ?text ?n = _ =>
      rewrite (lem st r text n eq_refl ltac:(vm_compute; discriminate) Hband)
  end.

Ltac next_state st' :=
  match goal with
  | |- context [run ?st (?p :: ?ps)] => rewrite (run_cons_ok st st' p ps)
  end.

(** C2 (as the code has it). The fragments of Scenario 1, each anywhere in
    its band, give exactly one record: entered 2016-10-15, value date
    2016-10-16, description "Payment received", and, the comma being
    dropped and the period kept as the decimal point, credited amount
    [Decimal("10000")] and balance [Decimal("1.50000")], that is 10000 and
    1.5. *)
Theorem scenario_one (p0 p1 p2 p3 p4 p5 p6 : Paragraph) (d1 d2 c b : Z) :
  body_text p0 scenario_period ->
  fragment_at p1 "15.10" ENTRY_DATE_LEFT_POSITION ->
  fragment_at p2 "16.10" VALUE_DATE_LEFT_POSITION ->
  fragment_at p3 "Payment" d1 -> description_band d1 ->
  fragment_at p4 "received" d2 -> description_band d2 ->
  fragment_at p5 "100,00+" c -> credited_band c ->
  fragment_at p6 "1.500,00+" b -> balance_band b ->
  parse_page [p0; p1; p2; p3; p4; p5; p6] = Ok [scenario_record]
  /\ joined_description scenario_record = "Payment received"
  /\ (exists x, credited scenario_record = Some x /\ (Dec.to_Q x == 10000)%Q)
  /\ (exists y, balance scenario_record = Some y /\ (Dec.to_Q y == 3 # 2)%Q).
Proof.
  intros (ps0 & H0) H1 H2 H3 Hd1 H4 Hd2 H5 Hc H6 Hb.
  split; [|split; [reflexivity|split; eexists; (split; [reflexivity|vm_compute; reflexivity])]].
  pose (r1 := line_started).
  pose (r2 := set_value_time r1 (DT.mk 2016 10 16)).
  pose (r3 := append_description r2 "Payment").
  pose (r4 := append_description r3 "received").
  pose (r5 := set_credited r4 (Dec.mk false 10000 0)).
  unfold parse_page.
  next_state (recording_2016 [] None).
  2:{ rewrite (step_relevant _ _ _ _ H0). vm_compute. reflexivity. }
  next_state (recording_2016 [] (Some r1)).
  2:{ date_step H1.
      vm_compute. reflexivity. }
  next_state (recording_2016 [] (Some r2)).
  2:{ date_step H2.
      vm_compute. reflexivity. }
  next_state (recording_2016 [] (Some r3)).
  2:{ band_step H3 Hd1.
      column_step other_column_description r2 Hd1.
      reflexivity. }
  next_state (recording_2016 [] (Some r4)).
  2:{ band_step H4 Hd2.
      column_step other_column_description r3 Hd2.
      reflexivity. }
  next_state (recording_2016 [] (Some r5)).
  2:{ band_step H5 Hc.
      column_step other_column_credited r4 Hc.
      vm_compute. reflexivity. }
  next_state (recording_2016 [] (Some scenario_record)).
  2:{ band_step H6 Hb.
      column_step other_column_balance r5 Hb.
      vm_compute. reflexivity. }
  reflexivity.
Qed.

Lemma scenario_one_witness :
  parse_page scenario_page = Ok [scenario_record]
  /\ joined_description scenario_record = "Payment received"
  /\ (exists x, credited scenario_record = Some x /\ (Dec.to_Q x == 10000)%Q)
  /\ (exists y, balance scenario_record = Some y /\ (Dec.to_Q y == 3 # 2)%Q).
Proof.
  apply (scenario_one (frag scenario_period 57) (frag "15.10" 57) (frag "16.10" 98)
                      (frag "Payment" 140) (frag "received" 140)
                      (frag "100,00+" 420) (frag "1.500,00+" 510)
                      140 140 420 510).
  - eexists. reflexivity.
  - apply fragment_at_frag. reflexivity.
  - apply fragment_at_frag. reflexivity.
  - apply fragment_at_frag. reflexivity.
  - unfold description_band, ENTRY_DATE_LEFT_POSITION, VALUE_DATE_LEFT_POSITION,
      CREDITED_MIN_LEFT_POSITION. lia.
  - apply fragment_at_frag. reflexivity.
  - unfold description_band, ENTRY_DATE_LEFT_POSITION, VALUE_DATE_LEFT_POSITION,
      CREDITED_MIN_LEFT_POSITION. lia.
  - apply fragment_at_frag. reflexivity.
  - unfold credited_band, CREDITED_MIN_LEFT_POSITION, BALANCE_MIN_LEFT_POSITION. lia.
  - apply fragment_at_frag. reflexivity.
  - unfold balance_band, BALANCE_MIN_LEFT_POSITION. lia.
Defined.

(** C2 (as the specification has it) fails: on the scenario the credited
    amount is not 100 and the balance is not 1500. *)
Lemma scenario_amounts_differ :
  ~ (exists out, parse_page scenario_page = Ok out /\ scenario_expected out).
Proof.
  intros (out & H & r & c & b & -> & _ & _ & _ & Hc & Hq & _).
  vm_compute in H. inversion H; subst.
  simpl in Hc. inversion Hc; subst.
  vm_compute in Hq. discriminate Hq.
Qed.

(** With the period as decimal point and the comma as thousands separator
    the amounts come out as 100.00 and 1500.00. *)
Lemma english_amounts_scenario :
  parse_page page_one = Ok [line_transfer]
  /\ (Dec.to_Q (Dec.mk false 10000 (-2)) == 100)%Q
  /\ (Dec.to_Q (Dec.mk false 150000 (-2)) == 1500)%Q.
Proof. repeat split. Qed.

(** ** Period marker while recording *)

Lemma period_marker_not_dd_mm (text : string) :
  is_period_marker text = true -> match_dd_mm text = false.
Proof.
  unfold is_period_marker, Str.startswith.
  destruct text as [|a text]; [discriminate|].
  cbn [prefix]. destruct (ascii_dec "P" a) as [<-|]; [|discriminate].
  intros _. unfold match_dd_mm.
  destruct text as [|b [|p [|c [|d tl]]]]; try reflexivity;
    destruct p as [[] [] [] [] [] [] [] []]; reflexivity.
Qed.

(** What [other_column] leaves alone. *)
Lemma other_column_frame (st st' : State) (text : string) (n : Z) :
  other_column st text n = Ok st' ->
  items st' = items st /\ is_recording st' = is_recording st
  /\ time_range_start st' = time_range_start st
  /\ time_range_end st' = time_range_end st.
Proof.
  unfold other_column. intros H.
  destruct (record st) as [r|]; [|inversion H; subst; auto].
  destruct (value_time r); [|inversion H; subst; auto].
  destruct (BALANCE_MIN_LEFT_POSITION <? n).
  { inv_bind H. inversion H; subst; cbn; auto. }
  destruct (CREDITED_MIN_LEFT_POSITION <? n).
  { inv_bind H. inversion H; subst; cbn; auto. }
  inversion H; subst; cbn; auto.
Qed.

(** C10. While recording the period from [s] to [e], an element whose text
    begins with "Period this statement relates to" is not taken as a period
    marker: whenever the element is accepted, recording goes on, the period
    is still the one from [s] to [e], whatever dates the text names, and the
    finalized records are the same.  The element is classified by its
    offset like any other: in the two date columns it is passed over as a
    text that is no date; at an offset of the description band, with an open
    record [r] whose value date is set, the record that is open afterwards
    has the description of [r] followed by the text of the element, as it
    stands, and the dates and amounts of [r]. *)
Theorem period_text_while_recording (st : State) (p : Paragraph) (text : string)
        (n : Z) (s e : DT.datetime) :
  is_recording st = true ->
  time_range_start st = Some s ->
  time_range_end st = Some e ->
  is_period_marker text = true ->
  fragment_at p text n ->
  (forall st', step st p = Ok st' ->
               is_recording st' = true
               /\ time_range_start st' = Some s /\ time_range_end st' = Some e
               /\ items st' = items st)
  /\ (n = ENTRY_DATE_LEFT_POSITION \/ n = VALUE_DATE_LEFT_POSITION ->
      step st p = Ok st)
  /\ (forall r,
        description_band n -> record st = Some r -> value_time r <> None ->
        step st p
        = Ok (mkState (items st)
                      (Some (mkLine (entry_time r) (value_time r)
                                    (description r ++ [text])
                                    (credited r) (balance r)))
                      true (Some s) (Some e))).
Proof.
  intros Hrec Hs He Hper Hfrag.
  assert (Hc : closes st text = false).
  { unfold closes. rewrite He. now apply period_not_terminator. }
  assert (Hdate : n = ENTRY_DATE_LEFT_POSITION \/ n = VALUE_DATE_LEFT_POSITION ->
                  step st p = Ok st).
  { intros Hn.
    rewrite (step_date_column st p text n Hrec Hc Hfrag Hn).
    unfold date_column. rewrite He, (period_marker_not_dd_mm text Hper).
    cbn [negb]. destruct st; simpl in *; now subst. }
  split; [|split].
  - intros st' H.
    destruct (Z.eq_dec n ENTRY_DATE_LEFT_POSITION) as [E1|N1];
      [rewrite (Hdate (or_introl E1)) in H; inversion H; subst; auto|].
    destruct (Z.eq_dec n VALUE_DATE_LEFT_POSITION) as [E2|N2];
      [rewrite (Hdate (or_intror E2)) in H; inversion H; subst; auto|].
    destruct Hfrag as (ps & Hrel & Hleft).
    rewrite (step_relevant _ _ _ _ Hrel) in H.
    rewrite (step_text_recording st text ps n Hrec Hc Hleft) in H.
    destruct (Z.eqb_spec n ENTRY_DATE_LEFT_POSITION); [contradiction|].
    destruct (Z.eqb_spec n VALUE_DATE_LEFT_POSITION); [contradiction|].
    cbn [orb] in H. apply other_column_frame in H as (Hi & Hr' & Hs' & He').
    rewrite Hr', Hs', He', Hi. auto.
  - exact Hdate.
  - intros r Hband Hr Hv.
    rewrite (step_other_band st p text n Hrec Hc Hfrag (or_introl Hband)).
    rewrite (other_column_description st r text n Hr Hv Hband).
    unfold with_record, append_description. now rewrite Hrec, Hs, He.
Qed.

Lemma period_text_while_recording_witness :
  step (recording_2016 [] (Some line_dated)) (frag scenario_period 140)
  = Ok (recording_2016
          []
          (Some (mkLine (day_2016 10 15) (day_2016 10 16)
                        ["Period this statement relates to: 01.09.2016 to 30.11.2016"]
                        None None)))
  /\ step (recording_2016 [] (Some line_dated)) (frag scenario_period 57)
     = Ok (recording_2016 [] (Some line_dated)).
Proof.
  split.
  - refine (proj2 (proj2 (period_text_while_recording
                            (recording_2016 [] (Some line_dated))
                            (frag scenario_period 140) scenario_period 140
                            (DT.mk 2016 9 1) (DT.mk 2016 11 30)
                            eq_refl eq_refl eq_refl eq_refl _))
                  line_dated _ eq_refl _).
    + apply fragment_at_frag. reflexivity.
    + unfold description_band, ENTRY_DATE_LEFT_POSITION, VALUE_DATE_LEFT_POSITION,
        CREDITED_MIN_LEFT_POSITION. lia.
    + discriminate.
  - refine (proj1 (proj2 (period_text_while_recording
                            (recording_2016 [] (Some line_dated))
                            (frag scenario_period 57) scenario_period 57
                            (DT.mk 2016 9 1) (DT.mk 2016 11 30)
                            eq_refl eq_refl eq_refl eq_refl _))
                  (or_introl eq_refl)).
    apply fragment_at_frag. reflexivity.
Defined.

(** ** Date columns *)

(** C5 (what the code does). A value-date element that matches DD.MM while
    no record is open is not skipped: reading [record.entry_time] on line
    172 raises AttributeError before the test of line 195 is reached. *)
Theorem value_date_without_record :
  step (recording_2016 [] None) (frag "16.10" 98) = Raise AttributeError
  /\ parse_page [period_2016; frag "16.10" 98] = Raise AttributeError.
Proof. split; vm_compute; reflexivity. Qed.

(** C3 (what the code does). The value date is accepted on a one-sided
    test: a date months before the entry date passes it.  The candidate of
    the following year is then never used, even where the value date falls
    into the new year. *)
Theorem value_date_before_entry :
  parse_page page_early_value = Ok [line_early_value]
  /\ DT.sub_days (DT.mk 2016 1 1) (DT.mk 2016 10 15) = -288
  /\ parse_page page_new_year = Ok [line_new_year]
  /\ DT.sub_days (DT.mk 2016 1 2) (DT.mk 2016 12 30) = -363.
Proof. repeat split; vm_compute; reflexivity. Qed.

(** C4 (as the specification has it) fails: "48.00" in the entry-date
    column is not ignored, it ends the page with an exception. *)
Lemma entry_date_48_00_raises :
  step (recording_2016 [] None) (frag "48.00" 57) = Raise TimestampNotAssigned
  /\ parse_page [period_2016; frag "48.00" 57] = Raise TimestampNotAssigned.
Proof. split; vm_compute; reflexivity. Qed.

(** C4 (as the code has it). In the entry-date column a DD.MM text that is
    not a calendar date in either year of the period yields no date: the
    ValueError of [strptime] is caught, and the element ends the page with
    "Timestamp ... could not be assigned within range". *)
Theorem invalid_entry_date (st : State) (p : Paragraph) (text : string)
        (s e : DT.datetime) :
  is_recording st = true ->
  time_range_start st = Some s ->
  time_range_end st = Some e ->
  closes st text = false ->
  fragment_at p text ENTRY_DATE_LEFT_POSITION ->
  match_dd_mm text = true ->
  DT.strptime (text ++ "." ++ Str.of_int (DT.year s)) = None ->
  DT.strptime (text ++ "." ++ Str.of_int (DT.year e)) = None ->
  step st p = Raise TimestampNotAssigned.
Proof.
  intros Hrec Hs He Hc Hfrag Hdd Hys Hye.
  rewrite (step_date_column st p text _ Hrec Hc Hfrag (or_introl eq_refl)).
  unfold date_column. cbn [time_range_start time_range_end].
  rewrite He, Hs, Hdd. cbn [negb Z.eqb ENTRY_DATE_LEFT_POSITION of_option bind].
  cbn [entry_stamp]. rewrite Hys. reflexivity.
Qed.

Lemma invalid_entry_date_witness :
  step (recording_2016 [] None) (frag "48.00" 57) = Raise TimestampNotAssigned.
Proof.
  apply (invalid_entry_date (recording_2016 [] None) (frag "48.00" 57) "48.00"
                            (DT.mk 2016 9 1) (DT.mk 2016 11 30));
    try reflexivity.
  apply fragment_at_frag. reflexivity.
Defined.

(** ** The closing balance line *)


(** While not recording, only a period marker changes the state. *)
Lemma step_not_recording (st : State) (p : Paragraph) :
  is_recording st = false -> not_period_marker p -> step st p = Ok st.
Proof.
  intros Hrec Hp. unfold step.
  destruct (relevant p) as [[text ps]|] eqn:Hrel; [|reflexivity].
  unfold step_text. rewrite Hrec, (Hp text ps Hrel). cbn [negb andb].
  destruct (closes st text); [|reflexivity].
  destruct st; simpl in *; now subst.
Qed.

Lemma run_not_recording (st : State) (ps : list Paragraph) :
  is_recording st = false -> Forall not_period_marker ps -> run st ps = Ok st.
Proof.
  intros Hrec H. induction H as [|p ps Hp _ IH]; simpl; [reflexivity|].
  rewrite (step_not_recording st p Hrec Hp). exact IH.
Qed.





(** ** The horizontal offset of an element *)

Lemma strip_prefix_sound (p s r : string) :
  Str.strip_prefix p s = Some r -> s = p ++ r.
Proof.
  revert s. induction p as [|a p IH]; intros s H; simpl in H.
  - now inversion H.
  - destruct s as [|b s]; [discriminate|].
    destruct (Ascii.eqb_spec a b) as [<-|]; [|discriminate].
    simpl. f_equal. now apply IH.
Qed.

Lemma span_digits_sound (s ds tl : string) :
  Str.span_digits s = (ds, tl) -> s = ds ++ tl /\ Str.all_digits ds = true.
Proof.
  revert ds tl. induction s as [|c s IH]; intros ds tl H; simpl in H.
  - inversion H. now split.
  - destruct (Str.is_digit c) eqn:Ec.
    + destruct (Str.span_digits s) as [ds' tl'].
      inversion H; subst.
      destruct (IH ds' tl eq_refl) as [-> Hd].
      split; [reflexivity|]. simpl. now rewrite Ec.
    + inversion H. now split.
Qed.

Lemma span_digits_app (ds : string) (c : ascii) (tl : string) :
  Str.all_digits ds = true -> Str.is_digit c = false ->
  Str.span_digits (ds ++ String c tl) = (ds, String c tl).
Proof.
  intros Hd Hc. induction ds as [|a ds IH]; simpl in *.
  - now rewrite Hc.
  - apply andb_prop in Hd as [Ha Hd]. rewrite Ha, (IH Hd). reflexivity.
Qed.

Lemma prefix_sound (p s : string) :
  prefix p s = true -> exists post, s = p ++ post.
Proof.
  revert s. induction p as [|a p IH]; intros s H.
  - now exists s.
  - destruct s as [|b s]; [discriminate|]. simpl in H.
    destruct (ascii_dec a b) as [<-|]; [|discriminate].
    destruct (IH s H) as [post ->]. now exists post.
Qed.

Lemma match_left_here_sound (s : string) (n : Z) :
  match_left_here s = Some n ->
  exists ds post,
    s = "left:" ++ ds ++ "pt" ++ post
    /\ ds <> EmptyString /\ Str.all_digits ds = true.
Proof.
  unfold match_left_here. intros H.
  destruct (Str.strip_prefix "left:" s) as [rest|] eqn:Ep; [|discriminate].
  apply strip_prefix_sound in Ep. subst s.
  destruct (Str.span_digits rest) as [ds tl] eqn:Es.
  apply span_digits_sound in Es as [-> Hd].
  destruct ds as [|c ds]; [discriminate|].
  destruct (prefix "pt" tl) eqn:Et; [|discriminate].
  apply prefix_sound in Et as [post ->].
  exists (String c ds), post. repeat split; [discriminate|exact Hd].
Qed.

Lemma match_left_here_complete (ds post : string) :
  ds <> EmptyString -> Str.all_digits ds = true ->
  match_left_here ("left:" ++ ds ++ "pt" ++ post) = Some (Str.int ds).
Proof.
  intros Hne Hd. unfold match_left_here. cbn [append Str.strip_prefix Ascii.eqb Bool.eqb].
  rewrite (span_digits_app ds "p" (String "t" post) Hd eq_refl).
  destruct ds; [congruence|]. destruct post; reflexivity.
Qed.

Lemma has_left_offset_cons (c : ascii) (s : string) :
  has_left_offset s -> has_left_offset (String c s).
Proof.
  intros (pre & ds & post & -> & H). exists (String c pre), ds, post.
  now split.
Qed.

(** A style the regular expression matches has a [left:<integer>pt]. *)
Lemma match_left_style_sound (s : string) (n : Z) :
  match_left_style s = Some n -> has_left_offset s.
Proof.
  revert n. induction s as [|c s IH]; intros n; simpl; [discriminate|].
  destruct (Ascii.eqb c Str.newline); [discriminate|].
  destruct (match_left_style s) as [m|].
  - intros _. apply has_left_offset_cons. now apply (IH m).
  - intros H. apply match_left_here_sound in H as (ds & post & -> & H).
    exists EmptyString, ds, post. now split.
Qed.

Lemma has_left_offsetb_here (s : string) :
  is_some (match_left_here s) = true -> has_left_offsetb s = true.
Proof. intros H. destruct s; cbn [has_left_offsetb]; now rewrite H. Qed.

Lemma has_left_offsetb_cons (c : ascii) (s : string) :
  has_left_offsetb s = true -> has_left_offsetb (String c s) = true.
Proof. intros H. cbn [has_left_offsetb]. rewrite H. apply orb_true_r. Qed.

Lemma has_left_offsetb_complete (s : string) :
  has_left_offset s -> has_left_offsetb s = true.
Proof.
  intros (pre & ds & post & -> & Hne & Hd).
  induction pre as [|c pre IH].
  - change ("" ++ "left:" ++ ds ++ "pt" ++ post)
      with ("left:" ++ ds ++ "pt" ++ post).
    apply has_left_offsetb_here.
    now rewrite (match_left_here_complete ds post Hne Hd).
  - change (String c pre ++ "left:" ++ ds ++ "pt" ++ post)
      with (String c (pre ++ "left:" ++ ds ++ "pt" ++ post)).
    now apply has_left_offsetb_cons.
Qed.

(** C9 (as the specification has it) fails: before the period marker an
    element without a horizontal offset is skipped like any other. *)
Lemma unplaced_element_skipped :
  body_text (unplaced "Account statement") "Account statement"
  /\ ~ has_left_offset "top:100pt;line-height:9pt"
  /\ parse_page [unplaced "Account statement"] = Ok [].
Proof.
  split; [eexists; reflexivity|].
  split; [|reflexivity].
  intros H. apply has_left_offsetb_complete in H. discriminate H.
Qed.

(** C9 (as the code has it). While recording, a body-text element that is
    not the closing balance line and whose paragraph style has no
    [left:<integer>pt] ends the page with "No left style in paragraph
    style". *)
Theorem missing_left_offset (pre rest : list Paragraph) (p : Paragraph)
        (st : State) (text par_style : string) :
  run initial pre = Ok st ->
  is_recording st = true ->
  relevant p = Some (text, par_style) ->
  closes st text = false ->
  ~ has_left_offset par_style ->
  step st p = Raise NoLeftStyle
  /\ parse_page (pre ++ p :: rest) = Raise NoLeftStyle.
Proof.
  intros Hpre Hrec Hrel Hc Hno.
  assert (Hstep : step st p = Raise NoLeftStyle).
  { rewrite (step_relevant _ _ _ _ Hrel). unfold step_text.
    rewrite Hc, Hrec. cbn [negb andb].
    destruct (match_left_style par_style) as [n|] eqn:E; [|reflexivity].
    exfalso. apply Hno. eapply match_left_style_sound; eauto. }
  split; [exact Hstep|].
  unfold parse_page. rewrite run_app, Hpre. cbn [bind run].
  now rewrite Hstep.
Qed.

Lemma missing_left_offset_witness :
  step (recording_2016 [] None) (unplaced "Account statement") = Raise NoLeftStyle
  /\ parse_page ([period_2016] ++ unplaced "Account statement" :: [frag "15.10" 57])
     = Raise NoLeftStyle.
Proof.
  apply (missing_left_offset [period_2016] [frag "15.10" 57]
                             (unplaced "Account statement")
                             (recording_2016 [] None)
                             "Account statement" "top:100pt;line-height:9pt").
  - vm_compute. reflexivity.
  - reflexivity.
  - reflexivity.
  - vm_compute. reflexivity.
  - intros H. apply has_left_offsetb_complete in H. discriminate H.
Defined.

(** * Further properties of the code *)

(** ** bank_currency_format_to_decimal *)

Lemma digits_and_periods_app (a b : string) :
  digits_and_periods (a ++ b) = digits_and_periods a ++ digits_and_periods b.
Proof.
  induction a as [|c a IH]; simpl; [reflexivity|].
  destruct (Str.is_digit c || Ascii.eqb c "."); simpl; now rewrite IH.
Qed.

Lemma endswith_app (a b : string) (x : ascii) :
  b <> EmptyString -> Str.endswith (a ++ b) x = Str.endswith b x.
Proof.
  intros Hb. induction a as [|c a IH]; [reflexivity|].
  cbn [append Str.endswith]. rewrite IH.
  destruct (a ++ b) eqn:E; [|reflexivity].
  destruct a; simpl in E; [congruence|discriminate].
Qed.

Lemma fix_sign (d : Dec.Decimal) : Dec.sign (Dec.fix_ d) = Dec.sign d.
Proof.
  unfold Dec.fix_.
  repeat match goal with
         | |- context [if ?c then _ else _] => destruct c
         end; reflexivity.
Qed.

Lemma of_string_sign (s : string) (d : Dec.Decimal) :
  Dec.of_string s = Some d -> Dec.sign d = false.
Proof.
  unfold Dec.of_string.
  destruct (Str.span_digits s) as [ip rest].
  destruct rest as [|c rest'].
  - destruct ip; intros H; inversion H; reflexivity.
  - destruct (Ascii.eqb_spec c ".") as [->|Hc].
    + destruct (Str.span_digits rest') as [fp rest''].
      destruct rest''; [|discriminate].
      destruct (ip ++ fp)%string; intros H; inversion H; reflexivity.
    + intros H. exfalso.
      destruct c as [[] [] [] [] [] [] [] []]; try discriminate H.
      now apply Hc.
Qed.

Lemma endswith_one (text : string) (x y : ascii) :
  Str.endswith text x = true -> Str.endswith text y = true -> x = y.
Proof.
  induction text as [|c text IH]; [discriminate|].
  cbn [Str.endswith]. destruct text as [|c' text].
  - intros Hx Hy.
    apply Ascii.eqb_eq in Hx, Hy. congruence.
  - exact IH.
Qed.


(** X2. The sign of a decoded amount is the last character of the text:
    a result can only come from a text that ends in [+], and is then not
    negative, or from one that ends in [-], and then carries the minus
    sign. *)
Theorem currency_sign (text : string) (d : Dec.Decimal) :
  bank_currency_format_to_decimal text = Ok d ->
  (Str.endswith text "+" = true /\ Dec.sign d = false)
  \/ (Str.endswith text "-" = true /\ Dec.sign d = true).
Proof.
  unfold bank_currency_format_to_decimal. intros H.
  destruct (Dec.of_string (digits_and_periods text)) as [d0|] eqn:E;
    [|discriminate]. simpl in H.
  apply of_string_sign in E.
  destruct (Str.endswith text "+") eqn:Hp.
  - left. inversion H. unfold Dec.mul_one. now rewrite fix_sign.
  - destruct (Str.endswith text "-") eqn:Hm; [|discriminate].
    right. inversion H. unfold Dec.mul_minus_one.
    rewrite fix_sign. simpl. now rewrite E.
Qed.

Lemma currency_sign_witness :
  (Str.endswith "20.00-" "+" = true /\ Dec.sign (Dec.mk true 2000 (-2)) = false)
  \/ (Str.endswith "20.00-" "-" = true /\ Dec.sign (Dec.mk true 2000 (-2)) = true).
Proof. apply (currency_sign "20.00-"). reflexivity. Defined.

(** X3. Every character other than a digit and the period is dropped
    before the number is read: putting such a character (a comma, a space,
    a letter) anywhere before the end of the text changes nothing. *)
Theorem currency_ignores_separators (a b : string) (c : ascii) :
  dropped c -> b <> EmptyString ->
  bank_currency_format_to_decimal (a ++ String c b)
  = bank_currency_format_to_decimal (a ++ b).
Proof.
  intros [Hd Hc] Hb. unfold bank_currency_format_to_decimal.
  rewrite !digits_and_periods_app. cbn [digits_and_periods].
  rewrite Hd. destruct (Ascii.eqb_spec c ".") as [E|_]; [contradiction|].
  cbn [orb].
  rewrite !(endswith_app a) by (assumption || discriminate).
  cbn [Str.endswith]. destruct b; [congruence|reflexivity].
Qed.

Lemma currency_ignores_separators_witness :
  bank_currency_format_to_decimal ("1" ++ String "," "500.00+")
  = bank_currency_format_to_decimal ("1" ++ "500.00+").
Proof.
  apply (currency_ignores_separators "1" "500.00+" ",").
  - split; [reflexivity|discriminate].
  - discriminate.
Defined.

(** ** sorted, once more *)

Section SortedAlready.

Context {A : Type}.
Variable lt : A -> A -> bool.

Lemma insert_front (x : A) (l : list A) :
  Forall (not_after lt x) l -> insert lt x l = x :: l.
Proof.
  intros H. destruct l as [|y l]; [reflexivity|].
  inversion H as [|? ? Hy _]; subst. simpl.
  unfold not_after in Hy. now rewrite Hy.
Qed.

Lemma stable_sort_id (l : list A) :
  StronglySorted (not_after lt) l -> stable_sort lt l = l.
Proof.
  induction 1 as [|x l Hs IH Hx]; simpl; [reflexivity|].
  rewrite IH. now apply insert_front.
Qed.

End SortedAlready.

Lemma stable_sort_line_sorted (l : list BankItemLine) :
  Forall has_entry l -> StronglySorted (not_after line_ltb) (stable_sort line_ltb l).
Proof.
  intros H. apply stable_sort_sorted with (dom := has_entry); auto.
  - apply line_ltb_asym.
  - apply line_not_after_trans.
Qed.

(** Sorting what [sorted] returned changes nothing. *)
Lemma sorted_idempotent (l out : list BankItemLine) :
  sorted l = Ok out -> sorted out = Ok out.
Proof.
  unfold sorted at 1.
  destruct (List.length l <=? 1)%nat eqn:El.
  - intros H; inversion H; subst. unfold sorted. now rewrite El.
  - destruct (forallb (fun r => is_some (entry_time r)) l) eqn:Ef; [|discriminate].
    intros H; inversion H; subst.
    assert (He : Forall has_entry l).
    { apply Forall_forall. rewrite forallb_forall in Ef. exact Ef. }
    assert (He' : Forall has_entry (stable_sort line_ltb l)).
    { apply (Permutation_Forall (stable_sort_perm line_ltb l)), He. }
    rewrite (sorted_entries _ He'). f_equal.
    apply stable_sort_id. now apply stable_sort_line_sorted.
Qed.

Lemma finish_sorted (st : State) (out : list BankItemLine) :
  finish st = Ok out -> exists l, sorted l = Ok out.
Proof.
  intros H.
  destruct (finish_cases st) as [E|[E|(r & _ & _ & E)]]; rewrite E in H.
  - discriminate.
  - eauto.
  - eauto.
Qed.

Lemma parse_page_from_sorted (page : list Paragraph) (out : list BankItemLine) :
  parse_page page = Ok out -> exists l, sorted l = Ok out.
Proof.
  unfold parse_page. intros H. inv_bind H. eapply finish_sorted; eauto.
Qed.

(** X4. The list [parse_page] returns is in order of entry date (line
    220): along it the entry dates never decrease. *)
Theorem parse_page_sorted (page : list Paragraph) (out : list BankItemLine) :
  parse_page page = Ok out -> StronglySorted entry_le out.
Proof.
  intros H.
  pose proof (parse_page_complete page out H) as Hc.
  apply items_complete_entries in Hc.
  destruct (parse_page_from_sorted page out H) as [l Hl].
  apply sorted_idempotent in Hl.
  destruct (sorted_spec out Hc) as (out' & Hs & _ & Hsorted & _).
  rewrite Hl in Hs. now inversion Hs; subst.
Qed.

Lemma parse_page_sorted_witness :
  StronglySorted entry_le [line_card; line_fee].
Proof. apply (parse_page_sorted page_two). vm_compute. reflexivity. Defined.

(** X5. A document of one page gives what the page gives: the second
    sort, in [parse_doc], finds the records of the page in order and
    leaves them so; and an exception of the page is the exception of the
    document. *)
Theorem parse_doc_single_page (page : list Paragraph) :
  parse_doc [page] = parse_page page.
Proof.
  unfold parse_doc. cbn [collect].
  destruct (parse_page page) as [out|e] eqn:E; [|reflexivity].
  cbn [bind app].
  destruct (parse_page_from_sorted page out E) as [l Hl].
  now apply sorted_idempotent in Hl.
Qed.

(** ** Elements the loop passes over *)

Lemma filtered_out_relevant (p : Paragraph) :
  filtered_out p -> relevant p = None.
Proof.
  unfold filtered_out, relevant.
  intros [H|[H|(s & Hs & [H|(ss & Hss & H)])]].
  - now rewrite H.
  - rewrite H. destruct (p_span p) as [s|]; [|reflexivity].
    now destruct (span_style s).
  - now rewrite Hs, H.
  - rewrite Hs, Hss. destruct (p_style p); [|reflexivity]. now rewrite H.
Qed.

(** X6. An element without a [span], without one of the two [style]
    attributes, or whose span style does not contain ["font-size:9pt"]
    plays no part: the page gives the same result, records or exception,
    with or without it, wherever it stands. *)
Theorem filtered_out_element (pre post : list Paragraph) (p : Paragraph) :
  filtered_out p ->
  parse_page (pre ++ p :: post) = parse_page (pre ++ post).
Proof.
  intros H. apply filtered_out_relevant in H.
  unfold parse_page. rewrite !run_app.
  destruct (run initial pre) as [st|e]; [|reflexivity].
  cbn [bind run]. unfold step at 1. now rewrite H.
Qed.

Lemma filtered_out_element_witness :
  parse_page ([period_2016; frag "15.10" 57] ++ heading "Account statement"
                :: [frag "16.10" 98; frag "Transfer" 140;
                    frag "100.00+" 420; frag "1,500.00+" 510])
  = parse_page ([period_2016; frag "15.10" 57]
                  ++ [frag "16.10" 98; frag "Transfer" 140;
                      frag "100.00+" 420; frag "1,500.00+" 510]).
Proof.
  apply (filtered_out_element [period_2016; frag "15.10" 57] _
                              (heading "Account statement")).
  right. right. eexists. split; [reflexivity|].
  right. eexists. split; reflexivity.
Defined.

(** X7. A page on which no body-text element begins with "Period this
    statement relates to" yields no records and no exception, whatever
    else it holds: offsets are not even read. *)
Theorem page_without_period (page : list Paragraph) :
  Forall not_period_marker page -> parse_page page = Ok [].
Proof.
  intros H. unfold parse_page.
  now rewrite (run_not_recording initial page eq_refl H).
Qed.

Lemma page_without_period_witness :
  parse_page [frag "15.10" 57; unplaced "48.00"; frag "1,500.00" 510] = Ok [].
Proof.
  apply (page_without_period [frag "15.10" 57; unplaced "48.00"; frag "1,500.00" 510]).
  repeat constructor; intros text ps H; inversion H; reflexivity.
Defined.

(** ** The entry-date column *)

Lemma entry_stamp_sound (text : string) (s e : DT.datetime) (years : list Z)
      (ts : DT.datetime) :
  entry_stamp text s e years = Some ts ->
  DT.leb s ts = true /\ DT.leb ts e = true
  /\ exists y, In y years /\ DT.strptime (text ++ "." ++ Str.of_int y) = Some ts.
Proof.
  induction years as [|y years IH]; cbn [entry_stamp]; [discriminate|].
  destruct (DT.strptime (text ++ "." ++ Str.of_int y)) as [t|] eqn:E; [|discriminate].
  destruct (DT.leb s t && DT.leb t e) eqn:Er.
  - intros H; inversion H; subst.
    apply andb_prop in Er as [? ?]. repeat split; auto.
    exists y. split; [now left|exact E].
  - intros H. destruct (IH H) as (? & ? & y' & ? & ?).
    repeat split; auto. exists y'. split; [now right|assumption].
Qed.

(** What [date_column] does with a DD.MM text in the entry-date column. *)
Lemma date_column_entry (st : State) (text : string) (s e : DT.datetime) :
  time_range_start st = Some s ->
  time_range_end st = Some e ->
  match_dd_mm text = true ->
  date_column st text ENTRY_DATE_LEFT_POSITION
  = match entry_stamp text s e [DT.year s; DT.year e] with
    | None => Raise TimestampNotAssigned
    | Some ts =>
        match record st with
        | None => Ok (with_record st (Some (set_entry_time new_line ts)))
        | Some r =>
            if is_complete r
            then Ok (mkState (items st ++ [r]) (Some (set_entry_time new_line ts))
                             (is_recording st) (Some s) (Some e))
            else Raise IncompleteRecordNewEntry
        end
    end.
Proof.
  intros Hs He Hdd. unfold date_column.
  cbn [time_range_start time_range_end record items is_recording].
  rewrite Hs, He, Hdd.
  cbn [negb Z.eqb ENTRY_DATE_LEFT_POSITION of_option bind].
  destruct (entry_stamp text s e [DT.year s; DT.year e]) as [ts|]; [|reflexivity].
  cbn [of_option bind].
  destruct (record st) as [r|]; [reflexivity|].
  unfold with_record. cbn. destruct st; simpl in *; now subst.
Qed.

(** X8. When a DD.MM text in the entry-date column is accepted while
    recording, the record that is open afterwards is a new one with nothing
    but its entry date, and that date lies within the statement period, both
    ends included.  A record that was open before has been moved to the end
    of the finalized records, and it was complete; it is never dropped and
    never overwritten. *)
Theorem entry_date_opens_record (st st' : State) (p : Paragraph) (text : string)
        (s e : DT.datetime) :
  is_recording st = true ->
  time_range_start st = Some s ->
  time_range_end st = Some e ->
  closes st text = false ->
  fragment_at p text ENTRY_DATE_LEFT_POSITION ->
  match_dd_mm text = true ->
  step st p = Ok st' ->
  (exists ts,
      record st' = Some (set_entry_time new_line ts)
      /\ DT.leb s ts = true /\ DT.leb ts e = true)
  /\ match record st with
     | None => items st' = items st
     | Some r => items st' = (items st ++ [r])%list /\ is_complete r = true
     end.
Proof.
  intros Hrec Hs He Hc Hfrag Hdd.
  rewrite (step_date_column st p text _ Hrec Hc Hfrag (or_introl eq_refl)).
  rewrite (date_column_entry st text s e Hs He Hdd).
  destruct (entry_stamp text s e [DT.year s; DT.year e]) as [ts|] eqn:E;
    [|discriminate].
  apply entry_stamp_sound in E as (H1 & H2 & _).
  destruct (record st) as [r|].
  - destruct (is_complete r); [|discriminate].
    intros H; inversion H; subst; cbn. split; eauto.
  - intros H; inversion H; subst; cbn. split; eauto.
Qed.

Lemma entry_date_opens_record_witness :
  (exists ts,
      record (recording_2016 [line_card] (Some (set_entry_time new_line (DT.mk 2016 10 17))))
      = Some (set_entry_time new_line ts)
      /\ DT.leb (DT.mk 2016 9 1) ts = true /\ DT.leb ts (DT.mk 2016 11 30) = true)
  /\ items (recording_2016 [line_card] (Some (set_entry_time new_line (DT.mk 2016 10 17))))
     = ([] ++ [line_card])%list
  /\ is_complete line_card = true.
Proof.
  apply (entry_date_opens_record
           (recording_2016 [] (Some line_card))
           (recording_2016 [line_card] (Some (set_entry_time new_line (DT.mk 2016 10 17))))
           (frag "17.10" 57) "17.10" (DT.mk 2016 9 1) (DT.mk 2016 11 30));
    try reflexivity.
  apply fragment_at_frag. reflexivity.
Defined.

Lemma entry_resolves_stamp (text : string) (s e : DT.datetime) :
  entry_resolves text s e ->
  exists ts, entry_stamp text s e [DT.year s; DT.year e] = Some ts.
Proof.
  unfold entry_resolves, in_period. intros (t1 & H1 & H).
  cbn [entry_stamp]. rewrite H1.
  destruct (DT.leb s t1 && DT.leb t1 e); [eauto|].
  destruct H as [H|(t2 & H2 & H)]; [discriminate|].
  rewrite H2, H. eauto.
Qed.

(** X9. An entry date that arrives while the open record is incomplete is
    fatal: if the text resolves to a date within the period, through the
    year in which the period starts or through the year in which it ends,
    the page ends with "Incomplete record found new entry timestamp". *)
Theorem new_entry_on_incomplete_record (st : State) (p : Paragraph) (text : string)
        (s e : DT.datetime) (r : BankItemLine) :
  is_recording st = true ->
  time_range_start st = Some s ->
  time_range_end st = Some e ->
  closes st text = false ->
  fragment_at p text ENTRY_DATE_LEFT_POSITION ->
  match_dd_mm text = true ->
  entry_resolves text s e ->
  record st = Some r ->
  is_complete r = false ->
  step st p = Raise IncompleteRecordNewEntry.
Proof.
  intros Hrec Hs He Hc Hfrag Hdd Hres Hr Hi.
  rewrite (step_date_column st p text _ Hrec Hc Hfrag (or_introl eq_refl)).
  rewrite (date_column_entry st text s e Hs He Hdd).
  destruct (entry_resolves_stamp text s e Hres) as [ts ->].
  now rewrite Hr, Hi.
Qed.

Lemma new_entry_on_incomplete_record_witness :
  step (recording_2016 [] (Some line_unbalanced)) (frag "17.10" 57)
  = Raise IncompleteRecordNewEntry
  /\ step recording_winter_open (frag "15.01" 57) = Raise IncompleteRecordNewEntry.
Proof.
  split.
  - apply (new_entry_on_incomplete_record
             (recording_2016 [] (Some line_unbalanced)) (frag "17.10" 57) "17.10"
             (DT.mk 2016 9 1) (DT.mk 2016 11 30) line_unbalanced);
      try reflexivity.
    + apply fragment_at_frag. reflexivity.
    + exists (DT.mk 2016 10 17). split; [reflexivity|]. left. reflexivity.
  - apply (new_entry_on_incomplete_record
             recording_winter_open (frag "15.01" 57) "15.01"
             (DT.mk 2015 12 1) (DT.mk 2016 3 1)
             (set_entry_time new_line (DT.mk 2015 12 20)));
      try reflexivity.
    + apply fragment_at_frag. reflexivity.
    + exists (DT.mk 2015 1 15). split; [reflexivity|]. right.
      exists (DT.mk 2016 1 15). split; reflexivity.
Defined.

(** ** The value-date column *)

Lemma value_stamp_sound (text : string) (entry : DT.datetime) (years : list Z)
      (ts : DT.datetime) :
  value_stamp text entry years = Ok (Some ts) ->
  DT.sub_days ts entry < 7
  /\ exists y, In y years /\ DT.strptime (text ++ "." ++ Str.of_int y) = Some ts.
Proof.
  induction years as [|y years IH]; cbn [value_stamp]; [discriminate|].
  destruct (DT.strptime (text ++ "." ++ Str.of_int y)) as [t|] eqn:E;
    cbn [of_option bind]; [|discriminate].
  destruct (Z.ltb_spec (DT.sub_days t entry) 7) as [Hlt|Hge].
  - intros H; inversion H; subst. split; [exact Hlt|].
    exists y. split; [now left|exact E].
  - intros H. destruct (IH H) as (? & y' & ? & ?).
    split; [assumption|]. exists y'. split; [now right|assumption].
Qed.

(** *** An invariant on the two dates of a record

    Whatever relation [ok] holds between an entry date and every value date
    resolved against it, holds between the two dates of every record the
    page gives. *)

Section DatesInvariant.

Variable ok : DT.datetime -> DT.datetime -> Prop.

Hypothesis resolved_ok :
  forall text entry ts,
    match_dd_mm text = true ->
    value_stamp text entry [DT.year entry; DT.year entry + 1] = Ok (Some ts) ->
    ok entry ts.

Lemma dates_related_of_complete (r : BankItemLine) :
  dates_related_if_set ok r -> is_complete r = true -> dates_related ok r.
Proof.
  unfold dates_related_if_set, dates_related, is_complete.
  destruct (entry_time r) as [e|]; [|discriminate].
  destruct (value_time r) as [v|]; [|discriminate].
  intros (e' & He & Hlt) _. inversion He; subst. eauto.
Qed.

Lemma date_column_dates_inv (st st' : State) (text : string) (n : Z) :
  date_column st text n = Ok st' -> dates_inv ok st -> dates_inv ok st'.
Proof.
  unfold date_column, dates_inv. intros H [Hi Hr].
  destruct (match_dd_mm text) eqn:Hdd; cbn [negb] in H;
    [|inversion H; subst; cbn [items record]; auto].
  inv_bind H. inv_bind H. cbn [record items] in *.
  destruct (n =? ENTRY_DATE_LEFT_POSITION).
  - destruct (record st) as [r|].
    + destruct (is_complete r) eqn:E; [|discriminate].
      inversion H; subst; cbn [items record]. split; [|exact I].
      apply Forall_app; split; [exact Hi|].
      constructor; [|constructor]. now apply dates_related_of_complete.
    + inversion H; subst; cbn [items record with_record]. split; [exact Hi|exact I].
  - inv_bind Ha. inv_bind Ha.
    apply of_option_ok in Ha2, Ha1, Ha0. subst a.
    apply (resolved_ok text a2 a0 Hdd) in Ha.
    rewrite Ha1 in H. rewrite Ha2 in H.
    inversion H; subst; cbn [items record with_record]. split; [exact Hi|].
    unfold dates_related_if_set. cbn. eauto.
Qed.

Lemma other_column_dates_inv (st st' : State) (text : string) (n : Z) :
  other_column st text n = Ok st' -> dates_inv ok st -> dates_inv ok st'.
Proof.
  unfold other_column, dates_inv. intros H [Hi Hr].
  destruct (record st) as [r|] eqn:Er;
    [|inversion H; subst; rewrite Er; auto].
  destruct (value_time r) as [v|] eqn:Ev;
    [|inversion H; subst; rewrite Er; auto].
  assert (Hset : forall r', entry_time r' = entry_time r ->
                            value_time r' = value_time r ->
                            dates_related_if_set ok r').
  { intros r' He Hv. unfold dates_related_if_set in *. now rewrite Hv, He. }
  destruct (BALANCE_MIN_LEFT_POSITION <? n).
  { inv_bind H. inversion H; subst; cbn. split; [exact Hi|]. now apply Hset. }
  destruct (CREDITED_MIN_LEFT_POSITION <? n).
  { inv_bind H. inversion H; subst; cbn. split; [exact Hi|]. now apply Hset. }
  inversion H; subst; cbn. split; [exact Hi|]. now apply Hset.
Qed.

Lemma step_dates_inv (st st' : State) (p : Paragraph) :
  step st p = Ok st' -> dates_inv ok st -> dates_inv ok st'.
Proof.
  unfold step. destruct (relevant p) as [[text ps]|]; [|intros H; inversion H; auto].
  unfold step_text. intros H Hd.
  destruct (closes st text).
  { inversion H; subst. exact Hd. }
  destruct (negb (is_recording st) && is_period_marker text).
  { inv_bind H. inversion H; subst. exact Hd. }
  destruct (negb (is_recording st)).
  { inversion H; subst. exact Hd. }
  inv_bind H.
  destruct ((a =? ENTRY_DATE_LEFT_POSITION) || (a =? VALUE_DATE_LEFT_POSITION)).
  - eapply date_column_dates_inv; eauto.
  - eapply other_column_dates_inv; eauto.
Qed.

Lemma run_dates_inv (ps : list Paragraph) (st st' : State) :
  run st ps = Ok st' -> dates_inv ok st -> dates_inv ok st'.
Proof.
  revert st. induction ps as [|p ps IH]; intros st H Hd; simpl in H.
  - inversion H; subst. exact Hd.
  - inv_bind H. eapply IH; eauto. eapply step_dates_inv; eauto.
Qed.

Lemma parse_page_dates (page : list Paragraph) (out : list BankItemLine) :
  parse_page page = Ok out -> Forall (dates_related ok) out.
Proof.
  unfold parse_page. intros H. inv_bind H.
  assert (Hd : dates_inv ok a).
  { eapply run_dates_inv; eauto. split; [constructor|exact I]. }
  destruct Hd as [Hi Hr].
  destruct (finish_cases a) as [E|[E|(r & Er & Ec & E)]]; rewrite E in H.
  - discriminate.
  - apply sorted_perm in H. eapply Permutation_Forall; eauto.
  - apply sorted_perm in H. eapply Permutation_Forall; eauto.
    apply Forall_app; split; [exact Hi|].
    constructor; [|constructor].
    rewrite Er in Hr. now apply dates_related_of_complete.
Qed.

End DatesInvariant.

(** X10. In every record [parse_page] returns, the value date lies less
    than seven days after the entry date.  (It may lie before it, by any
    number of days: the test of line 174 bounds the difference from above
    only.) *)
Theorem value_date_less_than_week_after (page : list Paragraph)
        (out : list BankItemLine) :
  parse_page page = Ok out -> Forall value_soon out.
Proof.
  apply (parse_page_dates (fun e v => DT.sub_days v e < 7)).
  intros text entry ts _ H. now apply value_stamp_sound in H.
Qed.

Lemma value_date_less_than_week_after_witness :
  Forall value_soon [line_early_value].
Proof.
  apply (value_date_less_than_week_after page_early_value).
  vm_compute. reflexivity.
Defined.


(** ** Elements that are ignored, and amounts that are not *)







(** ** str.split *)

Lemma str_app_nil_r (s : string) : s ++ "" = s.
Proof. induction s as [|c s IH]; simpl; [reflexivity|now rewrite IH]. Qed.

Lemma str_app_assoc (a b c : string) : (a ++ b) ++ c = a ++ b ++ c.
Proof. induction a as [|x a IH]; simpl; [reflexivity|now rewrite IH]. Qed.

Lemma prefix_app (p s : string) : prefix p (p ++ s) = true.
Proof.
  induction p as [|c p IH]; simpl.
  - now destruct s.
  - destruct (ascii_dec c c); [exact IH|congruence].
Qed.

(** Without an occurrence of the separator there is one piece. *)
Lemma split_go_none (sep cur text : string) :
  Str.contains sep text = false ->
  Str.split_go sep 0 cur text = [cur ++ text].
Proof.
  revert cur. induction text as [|c text IH]; intros cur H.
  - simpl. now rewrite str_app_nil_r.
  - cbn [Str.contains] in H. apply orb_false_elim in H as [Hp Hc].
    cbn [Str.split_go]. rewrite Hp, (IH _ Hc), str_app_assoc. reflexivity.
Qed.

Lemma has_char_contains (c : ascii) (sep' s : string) :
  has_char c s = false -> Str.contains (String c sep') s = false.
Proof.
  induction s as [|a s IH]; [reflexivity|].
  cbn [has_char Str.contains]. intros H.
  apply orb_false_elim in H as [Ha Hs].
  rewrite (IH Hs), orb_false_r. cbn [prefix].
  destruct (ascii_dec c a) as [->|]; [|reflexivity].
  now rewrite Ascii.eqb_refl in Ha.
Qed.

(** The first piece, when the text before the separator does not hold the
    first character of the separator. *)
Lemma split_go_first (c : ascii) (sep' cur a rest : string) :
  has_char c a = false ->
  Str.split_go (String c sep') 0 cur (a ++ String c sep' ++ rest)
  = (cur ++ a)
      :: Str.split_go (String c sep') (String.length sep') "" (sep' ++ rest).
Proof.
  revert cur. induction a as [|x a IH]; intros cur H.
  - rewrite str_app_nil_r. cbn [append].
    change (String c (sep' ++ rest)) with (String c sep' ++ rest).
    cbn [Str.split_go append].
    change (String c (sep' ++ rest)) with (String c sep' ++ rest).
    rewrite prefix_app. reflexivity.
  - cbn [has_char] in H. apply orb_false_elim in H as [Hx Ha].
    cbn [append Str.split_go prefix].
    destruct (ascii_dec c x) as [->|_]; [now rewrite Ascii.eqb_refl in Hx|].
    rewrite (IH _ Ha), str_app_assoc. reflexivity.
Qed.

Lemma date_like_no_char (c : ascii) (s : string) :
  Str.is_digit c = false -> c <> "."%char ->
  date_like s = true -> has_char c s = false.
Proof.
  intros Hd Hp. induction s as [|a s IH]; [reflexivity|].
  cbn [date_like has_char]. intros H.
  apply andb_prop in H as [Ha Hs]. rewrite (IH Hs), orb_false_r.
  destruct (Ascii.eqb_spec a c) as [->|]; [|reflexivity].
  rewrite Hd in Ha. destruct (Ascii.eqb_spec c "."); [contradiction|discriminate].
Qed.

Lemma has_char_app (c : ascii) (a b : string) :
  has_char c (a ++ b) = has_char c a || has_char c b.
Proof.
  induction a as [|x a IH]; [reflexivity|].
  cbn [append has_char]. now rewrite IH, orb_assoc.
Qed.

(** The two dates of a well-formed period marker. *)
Lemma parse_period_dates (d0 d1 : string) (s e : DT.datetime) :
  date_like d0 = true -> date_like d1 = true ->
  DT.strptime d0 = Some s -> DT.strptime d1 = Some e ->
  parse_period (period_prefix ++ ": " ++ d0 ++ " to " ++ d1) = Ok (s, e).
Proof.
  intros L0 L1 H0 H1. unfold parse_period, Str.split.
  assert (Hc : has_char ":" (d0 ++ " to " ++ d1) = false).
  { rewrite !has_char_app.
    rewrite (date_like_no_char ":" d0), (date_like_no_char ":" d1); auto;
      discriminate. }
  set (rest := d0 ++ " to " ++ d1) in *.
  rewrite (split_go_first ":" " " "" period_prefix rest eq_refl).
  cbn [String.length append Str.split_go].
  rewrite (split_go_none ": " "" rest (has_char_contains ":" " " rest Hc)).
  cbn [nth_error of_option bind append]. subst rest.
  rewrite (split_go_first " " "to " "" d0 d1
             (date_like_no_char " " d0 eq_refl ltac:(discriminate) L0)).
  cbn [String.length append Str.split_go].
  rewrite (split_go_none " to " "" d1
             (has_char_contains " " "to " d1
                (date_like_no_char " " d1 eq_refl ltac:(discriminate) L1))).
  cbn [nth_error of_option bind append].
  rewrite H0. cbn [of_option bind]. rewrite H1. reflexivity.
Qed.

(** ** The period marker *)

Lemma period_marker_closes (st : State) (text : string) :
  is_period_marker text = true -> closes st text = false.
Proof.
  intros H. unfold closes. destruct (time_range_end st); [|reflexivity].
  now apply period_not_terminator.
Qed.

(** X14. While not recording, a body-text element "Period this statement
    relates to: D0 to D1", with D0 and D1 two dates written DD.MM.YYYY in
    digits and periods, starts recording for the period from D0 to D1.  The
    finalized records and the open record stay as they are; the offset of
    the element is not read. *)
Theorem period_marker_starts_recording (st : State) (p : Paragraph)
        (d0 d1 : string) (s e : DT.datetime) :
  is_recording st = false ->
  body_text p (period_prefix ++ ": " ++ d0 ++ " to " ++ d1) ->
  date_like d0 = true -> date_like d1 = true ->
  DT.strptime d0 = Some s -> DT.strptime d1 = Some e ->
  step st p = Ok (mkState (items st) (record st) true (Some s) (Some e)).
Proof.
  intros Hrec (ps & Hrel) L0 L1 H0 H1.
  assert (Hm : is_period_marker (period_prefix ++ ": " ++ d0 ++ " to " ++ d1) = true)
    by apply prefix_app.
  rewrite (step_relevant _ _ _ _ Hrel). unfold step_text.
  rewrite (period_marker_closes st _ Hm), Hrec, Hm. cbn [negb andb].
  now rewrite (parse_period_dates d0 d1 s e L0 L1 H0 H1).
Qed.

Lemma period_marker_starts_recording_witness :
  step initial (unplaced (period_prefix ++ ": " ++ "1.12.2015" ++ " to " ++ "29.02.2016"))
  = Ok (mkState [] None true (Some (DT.mk 2015 12 1)) (Some (DT.mk 2016 2 29))).
Proof.
  apply (period_marker_starts_recording
           initial
           (unplaced (period_prefix ++ ": " ++ "1.12.2015" ++ " to " ++ "29.02.2016"))
           "1.12.2015" "29.02.2016" (DT.mk 2015 12 1) (DT.mk 2016 2 29));
    try reflexivity.
  eexists. reflexivity.
Defined.

(** X15. While not recording, a body-text element that begins with "Period
    this statement relates to" but has no colon followed by a space ends
    the page with IndexError: [text.split(": ")[1]] does not exist. *)
Theorem period_marker_without_colon (st : State) (p : Paragraph) (text : string) :
  is_recording st = false ->
  body_text p text ->
  is_period_marker text = true ->
  Str.contains ": " text = false ->
  step st p = Raise IndexError.
Proof.
  intros Hrec (ps & Hrel) Hm Hc.
  rewrite (step_relevant _ _ _ _ Hrel). unfold step_text.
  rewrite (period_marker_closes st _ Hm), Hrec, Hm. cbn [negb andb].
  unfold parse_period, Str.split.
  now rewrite (split_go_none ": " "" text Hc).
Qed.

Lemma period_marker_without_colon_witness :
  step initial (frag "Period this statement relates to 01.09.2016 - 30.11.2016" 57)
  = Raise IndexError.
Proof.
  apply (period_marker_without_colon
           initial
           (frag "Period this statement relates to 01.09.2016 - 30.11.2016" 57)
           "Period this statement relates to 01.09.2016 - 30.11.2016");
    try reflexivity.
  eexists. reflexivity.
Defined.

(** ** Printing and reading integers *)

Lemma int_acc_of_uint_acc (d : Decimal.uint) (acc : positive) :
  Str.int_acc (Z.pos acc) (NilEmpty.string_of_uint d)
  = Z.pos (Pos.of_uint_acc d acc).
Proof.
  revert acc. induction d; intros acc; cbn [NilEmpty.string_of_uint Str.int_acc
                                               Pos.of_uint_acc];
    try reflexivity;
    match goal with
    | |- Str.int_acc ?z _ = _ =>
        match goal with
        | |- _ = Z.pos (Pos.of_uint_acc _ ?q) =>
            replace z with (Z.pos q)
              by (unfold Str.digit_value;
                  simpl (Z.of_nat (nat_of_ascii _)); lia)
        end
    end; apply IHd.
Qed.

Lemma int_acc_of_uint (d : Decimal.uint) :
  Str.int_acc 0 (NilEmpty.string_of_uint d) = Z.of_N (Pos.of_uint d).
Proof.
  induction d; cbn [NilEmpty.string_of_uint Str.int_acc Pos.of_uint];
    try reflexivity;
    try (change (10 * 0 + Str.digit_value "0") with 0; exact IHd);
    match goal with
    | |- Str.int_acc ?z _ = Z.of_N (N.pos (Pos.of_uint_acc _ ?q)) =>
        change z with (Z.pos q)
    end; apply int_acc_of_uint_acc.
Qed.

(** [int(str(n)) == n] for a natural number. *)
Lemma int_of_int (n : Z) : 0 <= n -> Str.int (Str.of_int n) = n.
Proof.
  intros Hn. unfold Str.int, Str.of_int.
  destruct n as [|p|p]; [reflexivity| |lia].
  cbn [Z.to_int NilZero.string_of_int].
  destruct (Pos.to_uint p) eqn:E;
    try (unfold NilZero.string_of_uint;
         rewrite <- E, int_acc_of_uint, DecimalPos.Unsigned.of_to; reflexivity).
  exfalso. pose proof (DecimalPos.Unsigned.of_to p) as H. rewrite E in H.
  discriminate H.
Qed.

Lemma of_int_negative (p : positive) :
  exists s, Str.of_int (Z.neg p) = String "-" s.
Proof. unfold Str.of_int. cbn. eauto. Qed.

(** ** What strptime accepts *)

Lemma first_alt_inv {A : Type} (alts : list DT.alt) (s : string)
      (k : string -> string -> option A) (r : A) :
  DT.first_alt alts s k = Some r ->
  exists a m tl, In a alts /\ DT.match_alt a s = Some (m, tl) /\ k m tl = Some r.
Proof.
  induction alts as [|a alts IH]; cbn [DT.first_alt]; [discriminate|].
  destruct (DT.match_alt a s) as [[m tl]|] eqn:Em.
  - destruct (k m tl) as [r'|] eqn:Ek.
    + intros H; inversion H; subst. exists a, m, tl. repeat split; auto. now left.
    + intros H. destruct (IH H) as (a' & m' & tl' & Hin & ? & ?).
      exists a', m', tl'. repeat split; auto. now right.
  - intros H. destruct (IH H) as (a' & m' & tl' & Hin & ? & ?).
    exists a', m', tl'. repeat split; auto. now right.
Qed.

Lemma literal_dot_inv {A : Type} (s : string) (k : string -> option A) (r : A) :
  DT.literal_dot s k = Some r -> exists rest, s = String "." rest /\ k rest = Some r.
Proof.
  unfold DT.literal_dot. destruct s as [|c s]; [discriminate|].
  destruct c as [[] [] [] [] [] [] [] []]; try discriminate.
  intros H. eauto.
Qed.

Lemma digit_not_dot (c : ascii) (s : string) :
  Str.is_digit c = true -> String c s <> String "." s.
Proof. intros H E. inversion E; subst. discriminate H. Qed.

Lemma literal_dot_digit {A : Type} (c : ascii) (s : string) (k : string -> option A) :
  Str.is_digit c = true -> DT.literal_dot (String c s) k = None.
Proof.
  intros H. destruct (DT.literal_dot (String c s) k) as [r|] eqn:E; [|reflexivity].
  apply literal_dot_inv in E as (rest & E & _).
  inversion E; subst. discriminate H.
Qed.

Lemma is_char_digit (x c : ascii) :
  Str.is_digit x = false -> Str.is_digit c = true -> DT.is_char x c = false.
Proof.
  intros Hx Hc. unfold DT.is_char.
  destruct (Ascii.eqb_spec x c) as [->|]; [congruence|reflexivity].
Qed.

(** The day group of a text that begins with two digits. *)
Lemma d_group_inv {A : Type} (a b : ascii) (rest' : string)
      (k : string -> string -> option A) (r : A) :
  Str.is_digit a = true -> Str.is_digit b = true ->
  DT.first_alt DT.d_alts (String a (String b rest'))
               (fun d s1 => DT.literal_dot s1 (k d)) = Some r ->
  exists rest, rest' = String "." rest /\ k (String a (String b "")) rest = Some r.
Proof.
  intros Ha Hb H.
  apply first_alt_inv in H as (alt & m & tl & Hin & Hm & Hk).
  unfold DT.d_alts in Hin. cbn [In] in Hin.
  destruct Hin as [<-|[<-|[<-|[<-|[<-|[]]]]]]; cbn [DT.match_alt] in Hm.
  - destruct (DT.is_char "3" a); [|discriminate].
    destruct (DT.in_range 48 49 b); [|discriminate].
    inversion Hm; subst. apply literal_dot_inv in Hk as (rest & -> & Hk). eauto.
  - destruct (DT.in_range 49 50 a); [|discriminate].
    rewrite Hb in Hm.
    inversion Hm; subst. apply literal_dot_inv in Hk as (rest & -> & Hk). eauto.
  - destruct (DT.is_char "0" a); [|discriminate].
    destruct (DT.in_range 49 57 b); [|discriminate].
    inversion Hm; subst. apply literal_dot_inv in Hk as (rest & -> & Hk). eauto.
  - destruct (DT.in_range 49 57 a); [|discriminate].
    inversion Hm; subst. now rewrite literal_dot_digit in Hk.
  - rewrite (is_char_digit " " a eq_refl Ha) in Hm. discriminate.
Qed.

(** The month group of a text that begins with two digits. *)
Lemma m_group_inv {A : Type} (c d : ascii) (rest' : string)
      (k : string -> string -> option A) (r : A) :
  Str.is_digit c = true -> Str.is_digit d = true ->
  DT.first_alt DT.m_alts (String c (String d rest'))
               (fun m s3 => DT.literal_dot s3 (k m)) = Some r ->
  exists rest, rest' = String "." rest /\ k (String c (String d "")) rest = Some r.
Proof.
  intros Hc Hd H.
  apply first_alt_inv in H as (alt & m & tl & Hin & Hm & Hk).
  unfold DT.m_alts in Hin. cbn [In] in Hin.
  destruct Hin as [<-|[<-|[<-|[]]]]; cbn [DT.match_alt] in Hm.
  - destruct (DT.is_char "1" c); [|discriminate].
    destruct (DT.in_range 48 50 d); [|discriminate].
    inversion Hm; subst. apply literal_dot_inv in Hk as (rest & -> & Hk). eauto.
  - destruct (DT.is_char "0" c); [|discriminate].
    destruct (DT.in_range 49 57 d); [|discriminate].
    inversion Hm; subst. apply literal_dot_inv in Hk as (rest & -> & Hk). eauto.
  - destruct (DT.in_range 49 57 c); [|discriminate].
    inversion Hm; subst. now rewrite literal_dot_digit in Hk.
Qed.

(** The year group: four digits. *)
Lemma Y_group_inv {A : Type} (s : string) (k : string -> string -> option A) (r : A) :
  DT.first_alt DT.Y_alts s k = Some r ->
  exists y rest,
    s = y ++ rest /\ String.length y = 4%nat /\ Str.all_digits y = true
    /\ k y rest = Some r.
Proof.
  intros H.
  apply first_alt_inv in H as (alt & m & tl & Hin & Hm & Hk).
  unfold DT.Y_alts in Hin. cbn [In] in Hin. destruct Hin as [<-|[]].
  cbn [DT.match_alt] in Hm.
  destruct s as [|y1 s]; [discriminate|].
  destruct (Str.is_digit y1) eqn:E1; [|discriminate].
  destruct s as [|y2 s]; [discriminate|].
  destruct (Str.is_digit y2) eqn:E2; [|discriminate].
  destruct s as [|y3 s]; [discriminate|].
  destruct (Str.is_digit y3) eqn:E3; [|discriminate].
  destruct s as [|y4 s]; [discriminate|].
  destruct (Str.is_digit y4) eqn:E4; [|discriminate].
  inversion Hm; subst.
  exists (String y1 (String y2 (String y3 (String y4 "")))), tl.
  cbn. rewrite E1, E2, E3, E4. auto.
Qed.

Lemma int_group_digit (a : ascii) (s : string) :
  Str.is_digit a = true -> DT.int_group (String a s) = Str.int (String a s).
Proof.
  intros H. unfold DT.int_group.
  destruct a as [[] [] [] [] [] [] [] []]; try reflexivity; discriminate H.
Qed.

(** What [strptime] makes of two digits, a period, two digits, a period
    and a year. *)
Lemma strptime_dd_mm (a b c d : ascii) (rest : string) (t : DT.datetime) :
  Str.is_digit a = true -> Str.is_digit b = true ->
  Str.is_digit c = true -> Str.is_digit d = true ->
  DT.strptime (String a (String b (String "." (String c (String d rest))))) = Some t ->
  exists ys,
    rest = String "." ys
    /\ String.length ys = 4%nat /\ Str.all_digits ys = true
    /\ t = DT.mk (Str.int ys)
                 (Str.int (String c (String d "")))
                 (Str.int (String a (String b "")))
    /\ DT.valid (DT.year t) (DT.month t) (DT.day t) = true.
Proof.
  intros Ha Hb Hc Hd. unfold DT.strptime, DT.strptime_regex.
  destruct (DT.first_alt DT.d_alts _ _) as [[[[gd gm] gy] tl]|] eqn:E; [|discriminate].
  apply d_group_inv in E as (r1 & E1 & E); auto. inversion E1; subst r1.
  apply m_group_inv in E as (r2 & -> & E); auto.
  apply Y_group_inv in E as (ys & tl' & -> & Hlen & Hdig & E).
  inversion E; subst. clear E E1.
  destruct tl; [|discriminate]. rewrite str_app_nil_r.
  rewrite !int_group_digit by assumption.
  assert (Hy : DT.int_group gy = Str.int gy).
  { destruct gy as [|y1 gy]; [discriminate Hlen|].
    cbn [Str.all_digits] in Hdig. apply andb_prop in Hdig as [H1 _].
    now apply int_group_digit. }
  rewrite Hy.
  destruct (DT.valid _ _ _) eqn:Ev; [|discriminate].
  intros H; inversion H; subst. exists gy. cbn [DT.year DT.month DT.day].
  repeat split; auto.
Qed.

Lemma match_dd_mm_inv (text : string) :
  match_dd_mm text = true ->
  exists a b c d tl,
    text = String a (String b (String "." (String c (String d tl))))
    /\ Str.is_digit a = true /\ Str.is_digit b = true
    /\ Str.is_digit c = true /\ Str.is_digit d = true
    /\ (tl = EmptyString \/ tl = String Str.newline EmptyString).
Proof.
  unfold match_dd_mm.
  destruct text as [|a [|b [|p [|c [|d tl]]]]]; try discriminate;
    try (destruct p as [[] [] [] [] [] [] [] []]; discriminate).
  destruct p as [[] [] [] [] [] [] [] []]; try discriminate.
  intros H.
  apply andb_prop in H as [H Htl]. apply andb_prop in H as [H Hd].
  apply andb_prop in H as [H Hc]. apply andb_prop in H as [Ha Hb].
  exists a, b, c, d, tl. repeat split; auto.
  destruct tl as [|n [|? ?]]; [now left| |discriminate].
  right. apply Ascii.eqb_eq in Htl. now subst.
Qed.

(** The date read from a DD.MM text and a year. *)
Lemma strptime_text_year (text : string) (y : Z) (t : DT.datetime) :
  match_dd_mm text = true ->
  DT.strptime (text ++ "." ++ Str.of_int y) = Some t ->
  exists a b c d,
    text = String a (String b (String "." (String c (String d ""))))
    /\ DT.day t = Str.int (String a (String b ""))
    /\ DT.month t = Str.int (String c (String d ""))
    /\ DT.year t = y
    /\ DT.valid y (DT.month t) (DT.day t) = true.
Proof.
  intros Hdd H.
  destruct (match_dd_mm_inv text Hdd) as (a & b & c & d & tl & -> & Ha & Hb & Hc & Hd & Htl).
  cbn [append] in H.
  apply strptime_dd_mm in H as (ys & E & Hlen & Hdig & -> & Hv); auto.
  destruct Htl as [->| ->]; [|discriminate E].
  cbn [append] in E. inversion E as [Ey].
  assert (Hy : Str.int ys = y).
  { destruct y as [|p|p].
    - rewrite <- Ey in Hlen. discriminate Hlen.
    - rewrite <- Ey. now apply int_of_int.
    - destruct (of_int_negative p) as [s Es]. rewrite Es in Ey.
      rewrite <- Ey in Hdig. discriminate Hdig. }
  cbn [DT.year DT.month DT.day] in *. rewrite Hy in *.
  exists a, b, c, d. repeat split; auto. now rewrite Ey.
Qed.

(** ** The dates that are resolved *)

Lemma int_two_digits (a b : ascii) :
  Str.int (String a (String b "")) = two_digits a b.
Proof. unfold Str.int, two_digits. cbn [Str.int_acc]. lia. Qed.

Lemma days_before_year_next (y : Z) :
  DT.days_before_year (y + 1) - DT.days_before_year y >= 365.
Proof.
  unfold DT.days_before_year. cbv zeta.
  replace (y + 1 - 1) with y by lia.
  Z.div_mod_to_equations. lia.
Qed.

(** The same day of the following year is later. *)
Lemma toordinal_next_year (y m d : Z) :
  DT.toordinal (DT.mk y m d) < DT.toordinal (DT.mk (y + 1) m d).
Proof.
  unfold DT.toordinal, DT.days_before_month. cbn [DT.year DT.month DT.day].
  pose proof (days_before_year_next y).
  destruct ((2 <? m) && DT.is_leap y), ((2 <? m) && DT.is_leap (y + 1)); lia.
Qed.

(** The candidate of the following year is never the one that is taken:
    it is tried only when the candidate of the entry year lies a week or
    more after the entry date, and then it lies later still. *)
Lemma value_stamp_entry_year (text : string) (entry ts : DT.datetime) :
  match_dd_mm text = true ->
  value_stamp text entry [DT.year entry; DT.year entry + 1] = Ok (Some ts) ->
  DT.strptime (text ++ "." ++ Str.of_int (DT.year entry)) = Some ts
  /\ DT.sub_days ts entry < 7.
Proof.
  intros Hdd. cbn [value_stamp].
  destruct (DT.strptime (text ++ "." ++ Str.of_int (DT.year entry)))
    as [t1|] eqn:E1; cbn [of_option bind]; [|discriminate].
  destruct (Z.ltb_spec (DT.sub_days t1 entry) 7) as [Hlt|Hge].
  { intros H; inversion H; subst. auto. }
  destruct (DT.strptime (text ++ "." ++ Str.of_int (DT.year entry + 1)))
    as [t2|] eqn:E2; cbn [of_option bind]; [|discriminate].
  destruct (Z.ltb_spec (DT.sub_days t2 entry) 7) as [Hlt2|Hge2]; [|discriminate].
  exfalso.
  apply strptime_text_year in E1 as (a & b & c & d & Et & D1 & M1 & Y1 & _); auto.
  apply strptime_text_year in E2 as (a' & b' & c' & d' & Et' & D2 & M2 & Y2 & _); auto.
  rewrite Et in Et'. inversion Et'; subst a' b' c' d'.
  pose proof (toordinal_next_year (DT.year entry) (DT.month t1) (DT.day t1)) as Hn.
  destruct t1 as [y1 m1 dd1], t2 as [y2 m2 dd2].
  cbn [DT.year DT.month DT.day] in *. subst.
  unfold DT.sub_days in *. lia.
Qed.

(** X16. When a DD.MM text in the entry-date column is accepted, the
    entry date of the record it opens has the day and the month that are
    printed, and the year of the first or of the last day of the statement
    period. *)
Theorem entry_date_reads_text (st st' : State) (p : Paragraph) (text : string)
        (s e : DT.datetime) :
  is_recording st = true ->
  time_range_start st = Some s ->
  time_range_end st = Some e ->
  closes st text = false ->
  fragment_at p text ENTRY_DATE_LEFT_POSITION ->
  match_dd_mm text = true ->
  step st p = Ok st' ->
  exists a b c d ts,
    text = String a (String b (String "." (String c (String d ""))))
    /\ record st' = Some (set_entry_time new_line ts)
    /\ DT.day ts = two_digits a b
    /\ DT.month ts = two_digits c d
    /\ (DT.year ts = DT.year s \/ DT.year ts = DT.year e).
Proof.
  intros Hrec Hs He Hc Hfrag Hdd.
  rewrite (step_date_column st p text _ Hrec Hc Hfrag (or_introl eq_refl)).
  rewrite (date_column_entry st text s e Hs He Hdd).
  destruct (entry_stamp text s e [DT.year s; DT.year e]) as [ts|] eqn:E;
    [|discriminate].
  apply entry_stamp_sound in E as (_ & _ & y & Hy & E).
  apply strptime_text_year in E as (a & b & c & d & Et & D & M & Y & _); auto.
  rewrite !int_two_digits in *.
  assert (Hyear : DT.year ts = DT.year s \/ DT.year ts = DT.year e).
  { cbn [In] in Hy. destruct Hy as [<-|[<-|[]]]; auto. }
  intros H. exists a, b, c, d, ts.
  destruct (record st) as [r|].
  - destruct (is_complete r); [|discriminate].
    inversion H; subst st'; cbn. repeat split; auto.
  - inversion H; subst st'; cbn. repeat split; auto.
Qed.

Lemma entry_date_reads_text_witness :
  exists a b c d ts,
    "17.10" = String a (String b (String "." (String c (String d ""))))
    /\ record (recording_2016 [line_card] (Some (set_entry_time new_line (DT.mk 2016 10 17))))
       = Some (set_entry_time new_line ts)
    /\ DT.day ts = two_digits a b
    /\ DT.month ts = two_digits c d
    /\ (DT.year ts = DT.year (DT.mk 2016 9 1) \/ DT.year ts = DT.year (DT.mk 2016 11 30)).
Proof.
  apply (entry_date_reads_text
           (recording_2016 [] (Some line_card))
           (recording_2016 [line_card] (Some (set_entry_time new_line (DT.mk 2016 10 17))))
           (frag "17.10" 57) "17.10" (DT.mk 2016 9 1) (DT.mk 2016 11 30));
    try reflexivity.
  apply fragment_at_frag. reflexivity.
Defined.

(** X17. When a DD.MM text in the value-date column is accepted, there is
    an open record with an entry date, and the value date it gets has the
    day and the month that are printed and the year of the entry date: the
    candidate of the following year is never the one taken.  Nothing else
    changes. *)
Theorem value_date_reads_text (st st' : State) (p : Paragraph) (text : string)
        (e0 : DT.datetime) :
  is_recording st = true ->
  time_range_end st = Some e0 ->
  closes st text = false ->
  fragment_at p text VALUE_DATE_LEFT_POSITION ->
  match_dd_mm text = true ->
  step st p = Ok st' ->
  exists r entry a b c d ts,
    record st = Some r /\ entry_time r = Some entry
    /\ text = String a (String b (String "." (String c (String d ""))))
    /\ st' = with_record st (Some (set_value_time r ts))
    /\ DT.day ts = two_digits a b
    /\ DT.month ts = two_digits c d
    /\ DT.year ts = DT.year entry.
Proof.
  intros Hrec He Hc Hfrag Hdd.
  rewrite (step_date_column st p text _ Hrec Hc Hfrag (or_intror eq_refl)).
  unfold date_column. rewrite He, Hdd.
  cbn [negb Z.eqb VALUE_DATE_LEFT_POSITION ENTRY_DATE_LEFT_POSITION record].
  destruct (record st) as [r|] eqn:Er; cbn [of_option bind]; [|discriminate].
  destruct (entry_time r) as [entry|] eqn:Ee; cbn [of_option bind]; [|discriminate].
  destruct (value_stamp text entry [DT.year entry; DT.year entry + 1])
    as [[ts|]|] eqn:Ev; cbn [of_option bind]; try discriminate.
  apply value_stamp_entry_year in Ev as [Ev _]; auto.
  apply strptime_text_year in Ev as (a & b & c & d & Et & D & M & Y & _); auto.
  rewrite !int_two_digits in *.
  intros H. exists r, entry, a, b, c, d, ts.
  inversion H. repeat split; auto.
  unfold with_record. cbn. destruct st; simpl in *; now subst.
Qed.

Lemma value_date_reads_text_witness :
  exists r entry a b c d ts,
    record (recording_2016 [] (Some line_started)) = Some r
    /\ entry_time r = Some entry
    /\ "16.10" = String a (String b (String "." (String c (String d ""))))
    /\ recording_2016 [] (Some line_dated)
       = with_record (recording_2016 [] (Some line_started))
                     (Some (set_value_time r ts))
    /\ DT.day ts = two_digits a b
    /\ DT.month ts = two_digits c d
    /\ DT.year ts = DT.year entry.
Proof.
  apply (value_date_reads_text
           (recording_2016 [] (Some line_started))
           (recording_2016 [] (Some line_dated))
           (frag "16.10" 98) "16.10" (DT.mk 2016 11 30));
    try reflexivity.
  apply fragment_at_frag. reflexivity.
Defined.

(** X18. In every record [parse_page] returns, the value date lies in the
    calendar year of the entry date; a value date in the first days of
    January under an entry of the last days of December is put a year too
    early. *)
Theorem value_date_in_entry_year (page : list Paragraph) (out : list BankItemLine) :
  parse_page page = Ok out -> Forall same_year out.
Proof.
  apply (parse_page_dates (fun e v => DT.year v = DT.year e)).
  intros text entry ts Hdd H.
  apply value_stamp_entry_year in H as [H _]; auto.
  now apply strptime_text_year in H as (_ & _ & _ & _ & _ & _ & _ & Y & _).
Qed.

Lemma value_date_in_entry_year_witness :
  Forall same_year [line_new_year].
Proof.
  apply (value_date_in_entry_year page_new_year). vm_compute. reflexivity.
Defined.

(** ** Amounts are decoded exactly *)

Lemma digit_cases (c : ascii) :
  Str.is_digit c = true ->
  In c ["0"; "1"; "2"; "3"; "4"; "5"; "6"; "7"; "8"; "9"]%char.
Proof.
  destruct c as [[] [] [] [] [] [] [] []]; intros H; try discriminate H;
    cbn; tauto.
Qed.

(** A string of digits is the print of a decimal numeral. *)
Lemma digits_uint (s : string) :
  Str.all_digits s = true ->
  exists d, s = NilEmpty.string_of_uint d /\ String.length s = Decimal.nb_digits d.
Proof.
  induction s as [|c s IH]; cbn [Str.all_digits].
  - intros _. exists Decimal.Nil. now split.
  - intros H. apply andb_prop in H as [Hc Hs].
    destruct (IH Hs) as (d & -> & Hlen).
    apply digit_cases in Hc. cbn [In] in Hc.
    destruct Hc as [<-|[<-|[<-|[<-|[<-|[<-|[<-|[<-|[<-|[<-|[]]]]]]]]]]];
      [exists (Decimal.D0 d)|exists (Decimal.D1 d)|exists (Decimal.D2 d)
       |exists (Decimal.D3 d)|exists (Decimal.D4 d)|exists (Decimal.D5 d)
       |exists (Decimal.D6 d)|exists (Decimal.D7 d)|exists (Decimal.D8 d)
       |exists (Decimal.D9 d)];
      cbn; now rewrite Hlen.
Qed.

Lemma length_string_of_uint (d : Decimal.uint) :
  String.length (NilEmpty.string_of_uint d) = Decimal.nb_digits d.
Proof. induction d; cbn; now rewrite ?IHd. Qed.

(** Printing the number a numeral stands for gives the numeral without its
    leading zeros. *)
Lemma of_int_of_uint (d : Decimal.uint) :
  Str.of_int (Z.of_N (Pos.of_uint d)) = NilEmpty.string_of_uint (Decimal.unorm d).
Proof.
  unfold Str.of_int.
  assert (E : Z.to_int (Z.of_N (Pos.of_uint d))
              = Decimal.Pos (N.to_uint (Pos.of_uint d)))
    by (destruct (Pos.of_uint d); reflexivity).
  rewrite E, DecimalPos.Unsigned.to_of.
  cbn [NilZero.string_of_int]. unfold NilZero.string_of_uint.
  pose proof (DecimalFacts.unorm_nonnil d) as Hn.
  destruct (Decimal.unorm d); [congruence|reflexivity..].
Qed.

(** The number read from a string of digits has at most as many digits as
    the string. *)
Lemma num_digits_int (s : string) :
  Str.all_digits s = true -> s <> EmptyString ->
  Dec.num_digits (Str.int s) <= Z.of_nat (String.length s).
Proof.
  intros Hd Hne. destruct (digits_uint s Hd) as (d & -> & Hlen).
  unfold Dec.num_digits, Str.int.
  rewrite int_acc_of_uint, of_int_of_uint, !length_string_of_uint.
  apply inj_le. apply DecimalFacts.nb_digits_unorm.
  intros ->. now apply Hne.
Qed.

Lemma digits_and_periods_digits (s : string) :
  Str.all_digits s = true -> digits_and_periods s = s.
Proof.
  induction s as [|c s IH]; [reflexivity|].
  cbn [Str.all_digits digits_and_periods]. intros H.
  apply andb_prop in H as [Hc Hs]. now rewrite Hc, (IH Hs).
Qed.

Lemma span_digits_all (s : string) :
  Str.all_digits s = true -> Str.span_digits s = (s, EmptyString).
Proof.
  induction s as [|c s IH]; [reflexivity|].
  cbn [Str.all_digits Str.span_digits]. intros H.
  apply andb_prop in H as [Hc Hs]. now rewrite Hc, (IH Hs).
Qed.

Lemma all_digits_app (a b : string) :
  Str.all_digits a = true -> Str.all_digits b = true ->
  Str.all_digits (a ++ b) = true.
Proof.
  intros Ha Hb. induction a as [|c a IH]; [exact Hb|].
  cbn [append Str.all_digits] in *. apply andb_prop in Ha as [Hc Ha].
  now rewrite Hc, (IH Ha).
Qed.

Lemma fix_small (d : Dec.Decimal) :
  Dec.num_digits (Dec.coeff d) <= Dec.prec -> Dec.fix_ d = d.
Proof.
  intros H. unfold Dec.fix_.
  destruct (Dec.coeff d =? 0); [reflexivity|].
  destruct (Z.leb_spec (Dec.num_digits (Dec.coeff d)) Dec.prec); [reflexivity|lia].
Qed.

(** The number in a text [ip.fp] of digits. *)
Lemma of_string_point (ip fp : string) :
  Str.all_digits ip = true -> Str.all_digits fp = true ->
  (ip ++ fp)%string <> EmptyString ->
  Dec.of_string (ip ++ "." ++ fp)
  = Some (Dec.mk false (Str.int (ip ++ fp)) (- Z.of_nat (String.length fp))).
Proof.
  intros Hi Hf Hne. unfold Dec.of_string.
  change (ip ++ "." ++ fp) with (ip ++ String "." fp).
  rewrite (span_digits_app ip "." fp Hi eq_refl).
  rewrite (span_digits_all fp Hf).
  destruct (ip ++ fp)%string eqn:E; [congruence|reflexivity].
Qed.

Lemma decode_point (ip fp : string) (sg : ascii) :
  Str.all_digits ip = true -> Str.all_digits fp = true ->
  (ip ++ fp)%string <> EmptyString ->
  Z.of_nat (String.length (ip ++ fp)) <= 28 ->
  sg = "+"%char \/ sg = "-"%char ->
  bank_currency_format_to_decimal (ip ++ "." ++ fp ++ String sg "")
  = Ok (Dec.mk (Ascii.eqb sg "-") (Str.int (ip ++ fp))
               (- Z.of_nat (String.length fp))).
Proof.
  intros Hi Hf Hne Hlen Hsg. unfold bank_currency_format_to_decimal.
  assert (Hdp : digits_and_periods (ip ++ "." ++ fp ++ String sg "")
                = ip ++ "." ++ fp).
  { rewrite !digits_and_periods_app.
    rewrite (digits_and_periods_digits ip Hi), (digits_and_periods_digits fp Hf).
    change (digits_and_periods ".") with ".".
    replace (digits_and_periods (String sg "")) with ""
      by (destruct Hsg as [-> | ->]; reflexivity).
    now rewrite str_app_nil_r. }
  rewrite Hdp, (of_string_point ip fp Hi Hf Hne). cbn [of_option bind].
  assert (Hn : Dec.num_digits (Str.int (ip ++ fp)) <= Dec.prec).
  { unfold Dec.prec.
    pose proof (num_digits_int (ip ++ fp) (all_digits_app ip fp Hi Hf) Hne). lia. }
  replace (ip ++ "." ++ fp ++ String sg "")
    with ((ip ++ "." ++ fp) ++ String sg "")
    by (now rewrite !str_app_assoc).
  rewrite !endswith_app by discriminate.
  destruct Hsg as [-> | ->]; cbn [Str.endswith Ascii.eqb Bool.eqb].
  - unfold Dec.mul_one. now rewrite fix_small.
  - unfold Dec.mul_minus_one. now rewrite fix_small.
Qed.

(** X19. An amount written as digits, a period, digits and a sign, with
    at most 28 digits in all, is decoded exactly: the coefficient is the
    number the digits spell without the period, the exponent is minus the
    number of digits after the period, and the sign is the sign written. *)
Theorem currency_exact (ip fp : string) (sg : ascii) :
  Str.all_digits ip = true -> Str.all_digits fp = true ->
  (ip ++ fp)%string <> EmptyString ->
  Z.of_nat (String.length (ip ++ fp)) <= 28 ->
  sg = "+"%char \/ sg = "-"%char ->
  bank_currency_format_to_decimal (ip ++ "." ++ fp ++ String sg "")
  = Ok (Dec.mk (Ascii.eqb sg "-") (Str.int (ip ++ fp))
               (- Z.of_nat (String.length fp))).
Proof. apply decode_point. Qed.

Lemma currency_exact_witness :
  bank_currency_format_to_decimal ("1495" ++ "." ++ "00" ++ String "-" "")
  = Ok (Dec.mk (Ascii.eqb "-" "-") (Str.int ("1495" ++ "00"))
               (- Z.of_nat (String.length "00"))).
Proof.
  apply (currency_exact "1495" "00" "-"); try reflexivity.
  - discriminate.
  - cbn. lia.
  - now right.
Defined.

(** ** as_tuple on known values *)

Example format_2f_known :
  format_2f (Dec.mk false 150000 (-2)) = "1500.00"
  /\ format_2f (Dec.mk true 500 (-2)) = "-5.00"
  /\ format_2f (Dec.mk false 10000 0) = "10000.00"
  /\ format_2f (Dec.mk false 150000 (-5)) = "1.50"
  /\ format_2f (Dec.mk false 15 (-3)) = "0.02"
  /\ format_2f (Dec.mk true 5 (-3)) = "-0.00"
  /\ format_2f (Dec.mk false 25 (-3)) = "0.02"
  /\ format_2f (Dec.mk true 0 (-2)) = "-0.00".
Proof. repeat split; reflexivity. Qed.

Example as_tuple_known :
  as_tuple line_fee = Ok ("2016/10/15", "2016/10/15", "Fee", "-5.00", "1495.00")
  /\ as_tuple scenario_record
     = Ok ("2016/10/15", "2016/10/15", "Payment received", "10000.00", "1.50")
  /\ as_tuple new_line = Raise AttributeError.
Proof. repeat split; reflexivity. Qed.

(** ** From the statement to the table: amounts *)

Lemma int_acc_app (acc : Z) (a b : string) :
  Str.int_acc acc (a ++ b) = Str.int_acc (Str.int_acc acc a) b.
Proof.
  revert acc. induction a as [|c a IH]; intros acc; [reflexivity|].
  cbn [append Str.int_acc]. apply IH.
Qed.

Lemma int_app_two (ip : string) (f1 f2 : ascii) :
  Str.int (ip ++ String f1 (String f2 "")) = 100 * Str.int ip + two_digits f1 f2.
Proof.
  unfold Str.int, two_digits. rewrite int_acc_app. cbn [Str.int_acc]. lia.
Qed.

Lemma two_digits_range (f1 f2 : ascii) :
  Str.is_digit f1 = true -> Str.is_digit f2 = true ->
  0 <= two_digits f1 f2 < 100.
Proof.
  intros H1 H2. apply digit_cases in H1, H2. cbn [In] in H1, H2.
  destruct H1 as [<-|[<-|[<-|[<-|[<-|[<-|[<-|[<-|[<-|[<-|[]]]]]]]]]]];
    destruct H2 as [<-|[<-|[<-|[<-|[<-|[<-|[<-|[<-|[<-|[<-|[]]]]]]]]]]];
    cbv; split; congruence.
Qed.

Lemma pad_two_digits (f1 f2 : ascii) :
  Str.is_digit f1 = true -> Str.is_digit f2 = true ->
  Str.pad 2 (two_digits f1 f2) = String f1 (String f2 "").
Proof.
  intros H1 H2. apply digit_cases in H1, H2. cbn [In] in H1, H2.
  destruct H1 as [<-|[<-|[<-|[<-|[<-|[<-|[<-|[<-|[<-|[<-|[]]]]]]]]]]];
    destruct H2 as [<-|[<-|[<-|[<-|[<-|[<-|[<-|[<-|[<-|[<-|[]]]]]]]]]]];
    reflexivity.
Qed.

Lemma canonical_digits (s : string) :
  canonical s = true -> Str.all_digits s = true /\ s <> EmptyString.
Proof.
  destruct s as [|c s]; [discriminate|]. unfold canonical.
  destruct c as [[] [] [] [] [] [] [] []]; intros H;
    try (split; [exact H|discriminate]).
  apply String.eqb_eq in H. subst. split; [reflexivity|discriminate].
Qed.

Lemma string_of_uint_nil (d : Decimal.uint) :
  NilEmpty.string_of_uint d = EmptyString -> d = Decimal.Nil.
Proof. destruct d; [reflexivity|discriminate..]. Qed.

(** Reading a numeral without leading zeros and printing the number gives
    the numeral back. *)
Lemma of_int_int (s : string) :
  canonical s = true -> Str.of_int (Str.int s) = s.
Proof.
  intros Hc. destruct (canonical_digits s Hc) as [Hd Hne].
  destruct (digits_uint s Hd) as (d & E & _). subst s.
  unfold Str.int. rewrite int_acc_of_uint, of_int_of_uint. f_equal.
  destruct d; try reflexivity; [discriminate Hc|].
  cbn [NilEmpty.string_of_uint canonical] in Hc.
  apply String.eqb_eq, string_of_uint_nil in Hc. now subst.
Qed.

(** X20. An amount that the statement prints as a numeral without leading
    zeros, a period, two decimals and a sign, with at most 28 digits in
    all, is written to the table as it was read, the minus sign first and a
    plus sign dropped: decoding and formatting with two decimals lose
    nothing. *)
Theorem amount_read_then_written (ip : string) (f1 f2 sg : ascii) :
  canonical ip = true ->
  Str.is_digit f1 = true -> Str.is_digit f2 = true ->
  Z.of_nat (String.length ip) <= 26 ->
  sg = "+"%char \/ sg = "-"%char ->
  exists d,
    bank_currency_format_to_decimal
      (ip ++ "." ++ String f1 (String f2 "") ++ String sg "") = Ok d
    /\ format_2f d
       = (if Ascii.eqb sg "-" then "-" else "")
           ++ ip ++ "." ++ String f1 (String f2 "").
Proof.
  intros Hc H1 H2 Hlen Hsg.
  destruct (canonical_digits ip Hc) as [Hd Hne].
  set (fp := String f1 (String f2 "")).
  assert (Hf : Str.all_digits fp = true) by (cbn; now rewrite H1, H2).
  assert (Hne' : (ip ++ fp)%string <> EmptyString).
  { destruct ip; [congruence|discriminate]. }
  assert (Hlen' : Z.of_nat (String.length (ip ++ fp)) <= 28).
  { assert (E : String.length (ip ++ fp) = (String.length ip + 2)%nat).
    { clear. induction ip as [|c ip IH]; [reflexivity|]. cbn. now rewrite IH. }
    rewrite E. lia. }
  eexists. split; [apply (decode_point ip fp sg Hd Hf Hne' Hlen' Hsg)|].
  unfold format_2f, rescale_2. cbn [Dec.sign Dec.coeff Dec.exp].
  subst fp. rewrite int_app_two.
  pose proof (two_digits_range f1 f2 H1 H2) as Hr.
  set (n := Str.int ip) in *. set (t := two_digits f1 f2) in *.
  assert (Hdiv : (100 * n + t) / 100 = n).
  { rewrite Z.mul_comm, Z.div_add_l by lia. rewrite Z.div_small; lia. }
  assert (Hmod : (100 * n + t) mod 100 = t).
  { rewrite Z.add_comm, Z.mul_comm, Z.mod_add by lia. apply Z.mod_small; lia. }
  assert (E : (if 100 * n + t =? 0 then 0
               else if -2 <=? - Z.of_nat (String.length (String f1 (String f2 "")))
                    then (100 * n + t)
                         * 10 ^ (- Z.of_nat (String.length (String f1 (String f2 ""))) + 2)
                    else round_half_even (100 * n + t)
                           (-2 - - Z.of_nat (String.length (String f1 (String f2 "")))))
              = 100 * n + t).
  { cbn [String.length Z.of_nat Pos.of_succ_nat Pos.succ Z.opp Z.leb Z.compare
           Pos.compare Pos.compare_cont CompOpp Z.add Z.pos_sub Z.pow Z.pow_pos].
    destruct (Z.eqb_spec (100 * n + t) 0) as [->|]; [reflexivity|].
    cbn. lia. }
  rewrite E, Hdiv, Hmod. subst n t.
  now rewrite (of_int_int ip Hc), (pad_two_digits f1 f2 H1 H2).
Qed.

Lemma amount_read_then_written_witness :
  exists d,
    bank_currency_format_to_decimal
      ("1495" ++ "." ++ String "0" (String "0" "") ++ String "-" "") = Ok d
    /\ format_2f d
       = (if Ascii.eqb "-" "-" then "-" else "")
           ++ "1495" ++ "." ++ String "0" (String "0" "").
Proof.
  apply (amount_read_then_written "1495" "0" "0" "-"); try reflexivity.
  - cbn. lia.
  - now right.
Defined.

(** ** From the statement to the table: rows *)

(** X21. Every record [parse_page] returns can be written: [as_tuple]
    raises nothing on it, both date columns of the row hold the entry date
    (the value date is not written), the description is joined by single
    spaces, and both amounts are printed as numbers with two decimals,
    never as "None". *)
Theorem parsed_records_writable (page : list Paragraph) (out : list BankItemLine) :
  parse_page page = Ok out -> Forall writable out.
Proof.
  intros H. apply parse_page_complete in H.
  unfold items_complete in H. eapply Forall_impl; [|exact H].
  intros r Hr. unfold is_complete in Hr. unfold writable, as_tuple, row_of.
  destruct (entry_time r) as [e|]; [|discriminate].
  destruct (value_time r); [|discriminate].
  destruct (credited r) as [c|]; [|discriminate].
  destruct (balance r) as [b|]; [|discriminate].
  exists e, c, b. repeat split; reflexivity.
Qed.

Lemma parsed_records_writable_witness :
  Forall writable [line_card; line_fee].
Proof. apply (parsed_records_writable page_two). vm_compute. reflexivity. Defined.

(** ** Failures *)

(** X22. In the entry-date column the year in which the period starts
    decides: a DD.MM text that is no calendar date in that year ends the
    page with "Timestamp ... could not be assigned within range", whatever
    the year in which the period ends, because the first ValueError ends
    the search (line 166).  So 29.02 is refused in a period from December
    2015 to March 2016. *)
Theorem entry_date_first_year_decides (st : State) (p : Paragraph) (text : string)
        (s e : DT.datetime) :
  is_recording st = true ->
  time_range_start st = Some s ->
  time_range_end st = Some e ->
  closes st text = false ->
  fragment_at p text ENTRY_DATE_LEFT_POSITION ->
  match_dd_mm text = true ->
  DT.strptime (text ++ "." ++ Str.of_int (DT.year s)) = None ->
  step st p = Raise TimestampNotAssigned.
Proof.
  intros Hrec Hs He Hc Hfrag Hdd Hys.
  rewrite (step_date_column st p text _ Hrec Hc Hfrag (or_introl eq_refl)).
  rewrite (date_column_entry st text s e Hs He Hdd).
  cbn [entry_stamp]. now rewrite Hys.
Qed.

Lemma entry_date_first_year_decides_witness :
  step recording_winter (frag "29.02" 57) = Raise TimestampNotAssigned
  /\ DT.strptime "29.02.2016" = Some (DT.mk 2016 2 29).
Proof.
  split; [|reflexivity].
  apply (entry_date_first_year_decides recording_winter (frag "29.02" 57) "29.02"
                                       (DT.mk 2015 12 1) (DT.mk 2016 3 1));
    try reflexivity.
  apply fragment_at_frag. reflexivity.
Defined.

Lemma collect_raises (pre post : list (list Paragraph)) (page : list Paragraph)
      (outs : list (list BankItemLine)) (acc : list BankItemLine) (e : error) :
  Forall2 (fun pg o => parse_page pg = Ok o) pre outs ->
  parse_page page = Raise e ->
  collect acc (pre ++ page :: post) = Raise e.
Proof.
  intros H Hp. revert acc.
  induction H as [|pg o pre outs Hpg _ IH]; intros acc; cbn [app collect].
  - now rewrite Hp.
  - rewrite Hpg. cbn [bind]. apply IH.
Qed.

(** X23. A document has no partial result: when a page raises an
    exception and the pages before it do not, [parse_doc] raises that
    exception, whatever the earlier pages gave and whatever follows. *)
Theorem parse_doc_first_failure (pre post : list (list Paragraph))
        (page : list Paragraph) (outs : list (list BankItemLine)) (e : error) :
  Forall2 (fun pg o => parse_page pg = Ok o) pre outs ->
  parse_page page = Raise e ->
  parse_doc (pre ++ page :: post) = Raise e.
Proof.
  intros H Hp. unfold parse_doc.
  now rewrite (collect_raises pre post page outs [] e H Hp).
Qed.

Lemma parse_doc_first_failure_witness :
  parse_doc ([page_one] ++ page_broken :: [page_two]) = Raise IncompletePageEnd.
Proof.
  apply (parse_doc_first_failure [page_one] [page_two] page_broken [[line_transfer]]).
  - repeat constructor.
  - vm_compute. reflexivity.
Defined.

(** ** Which texts are amounts *)

Lemma span_digits_rest (s ip rest : string) :
  Str.span_digits s = (ip, rest) ->
  rest = EmptyString \/ exists c r, rest = String c r /\ Str.is_digit c = false.
Proof.
  revert ip rest. induction s as [|c s IH]; intros ip rest H; simpl in H.
  - inversion H. now left.
  - destruct (Str.is_digit c) eqn:Ec.
    + destruct (Str.span_digits s) as [ds tl]. inversion H; subst.
      now apply (IH ds).
    + inversion H; subst. right. eauto.
Qed.

Lemma digits_no_period (s : string) :
  Str.all_digits s = true -> count_periods s = O.
Proof.
  induction s as [|c s IH]; [reflexivity|].
  cbn [Str.all_digits count_periods]. intros H.
  apply andb_prop in H as [Hc Hs]. rewrite (IH Hs).
  destruct (Ascii.eqb_spec c ".") as [->|]; [discriminate Hc|reflexivity].
Qed.

Lemma digits_has_digit (s : string) :
  Str.all_digits s = true -> s <> EmptyString -> has_digit s = true.
Proof.
  destruct s as [|c s]; [congruence|].
  cbn [Str.all_digits has_digit]. intros H _.
  apply andb_prop in H as [Hc _]. now rewrite Hc.
Qed.

Lemma has_digit_app (a b : string) :
  has_digit (a ++ b) = has_digit a || has_digit b.
Proof.
  induction a as [|c a IH]; [reflexivity|].
  cbn [append has_digit]. now rewrite IH, orb_assoc.
Qed.

Lemma count_periods_app (a b : string) :
  count_periods (a ++ b) = (count_periods a + count_periods b)%nat.
Proof.
  induction a as [|c a IH]; [reflexivity|].
  cbn [append count_periods]. rewrite IH. lia.
Qed.

Lemma date_like_app (a b : string) :
  date_like (a ++ b) = date_like a && date_like b.
Proof.
  induction a as [|c a IH]; [reflexivity|].
  cbn [append date_like]. now rewrite IH, andb_assoc.
Qed.

Lemma date_like_head (c : ascii) (s : string) :
  date_like (String c s) = true -> Str.is_digit c = false -> c = "."%char.
Proof.
  cbn [date_like]. intros H Hc. apply andb_prop in H as [H _].
  rewrite Hc in H. now apply Ascii.eqb_eq in H.
Qed.

(** [Decimal(s)] for a string of digits and periods succeeds exactly when
    there is a digit and at most one period. *)
Lemma of_string_defined (s : string) :
  date_like s = true ->
  is_some (Dec.of_string s) = has_digit s && (count_periods s <=? 1)%nat.
Proof.
  intros Hl. unfold Dec.of_string.
  destruct (Str.span_digits s) as [ip rest] eqn:E.
  pose proof (span_digits_rest s ip rest E) as Hrest.
  apply span_digits_sound in E as [-> Hip].
  rewrite date_like_app in Hl. apply andb_prop in Hl as [_ Hl].
  rewrite has_digit_app, count_periods_app, (digits_no_period ip Hip).
  destruct Hrest as [->|(c & r & -> & Hc)].
  - cbn [has_digit count_periods Nat.add Nat.leb]. rewrite orb_false_r, andb_true_r.
    destruct ip; [reflexivity|]. now rewrite (digits_has_digit _ Hip).
  - pose proof (date_like_head c r Hl Hc) as ->.
    cbn [date_like] in Hl. apply andb_prop in Hl as [_ Hl].
    destruct (Str.span_digits r) as [fp rest'] eqn:E'.
    pose proof (span_digits_rest r fp rest' E') as Hrest'.
    apply span_digits_sound in E' as [-> Hfp].
    rewrite date_like_app in Hl. apply andb_prop in Hl as [_ Hl].
    cbn [has_digit count_periods Ascii.eqb Bool.eqb Str.is_digit]. cbn [orb].
    rewrite has_digit_app, count_periods_app, (digits_no_period fp Hfp).
    destruct Hrest' as [->|(c' & r' & -> & Hc')].
    + cbn [has_digit count_periods Nat.add Nat.leb]. rewrite !orb_false_r, andb_true_r.
      destruct ip as [|x ip]; cbn [append].
      * destruct fp; [reflexivity|]. now rewrite (digits_has_digit _ Hfp).
      * now rewrite (digits_has_digit _ Hip).
    + pose proof (date_like_head c' r' Hl Hc') as ->.
      cbn [count_periods Ascii.eqb Bool.eqb Nat.add Nat.leb].
      now rewrite andb_false_r.
Qed.

Lemma digits_and_periods_like (text : string) :
  date_like (digits_and_periods text) = true.
Proof.
  induction text as [|c text IH]; [reflexivity|].
  cbn [digits_and_periods].
  destruct (Str.is_digit c || Ascii.eqb c ".") eqn:E; [|exact IH].
  cbn [date_like]. now rewrite E, IH.
Qed.

Lemma digits_and_periods_has_digit (text : string) :
  has_digit (digits_and_periods text) = has_digit text.
Proof.
  induction text as [|c text IH]; [reflexivity|].
  cbn [digits_and_periods has_digit].
  destruct (Str.is_digit c) eqn:Ec; cbn [orb].
  - cbn [has_digit]. now rewrite Ec.
  - destruct (Ascii.eqb c "."); [|exact IH].
    cbn [has_digit]. now rewrite Ec, IH.
Qed.

Lemma digits_and_periods_count (text : string) :
  count_periods (digits_and_periods text) = count_periods text.
Proof.
  induction text as [|c text IH]; [reflexivity|].
  cbn [digits_and_periods count_periods].
  destruct (Ascii.eqb_spec c ".") as [->|Hc].
  - rewrite orb_true_r. cbn [count_periods Ascii.eqb Bool.eqb]. now rewrite IH.
  - rewrite orb_false_r. destruct (Str.is_digit c); [|exact IH].
    cbn [count_periods]. destruct (Ascii.eqb_spec c "."); [contradiction|].
    now rewrite IH.
Qed.

(** X1. Which texts are decoded: [bank_currency_format_to_decimal]
    returns an amount exactly for the texts that hold a digit, hold at most
    one period, and end in [+] or [-]; on every other text it raises.  The
    other characters do not matter. *)
Theorem currency_decodable (text : string) :
  (exists d, bank_currency_format_to_decimal text = Ok d) <-> decodable text.
Proof.
  unfold decodable, bank_currency_format_to_decimal.
  pose proof (of_string_defined _ (digits_and_periods_like text)) as H.
  rewrite digits_and_periods_has_digit, digits_and_periods_count in H.
  destruct (Dec.of_string (digits_and_periods text)) as [d0|];
    cbn [is_some of_option bind] in *.
  - symmetry in H. apply andb_prop in H as [Hd Hp]. apply Nat.leb_le in Hp.
    split.
    + intros [d Hd']. repeat split; auto.
      destruct (Str.endswith text "+"); [now left|].
      destruct (Str.endswith text "-"); [now right|discriminate].
    + intros (_ & _ & [Hs|Hs]).
      * rewrite Hs. eauto.
      * rewrite Hs. destruct (Str.endswith text "+"); eauto.
  - split.
    + intros [d Hd]. discriminate.
    + intros (Hd & Hp & _). apply Nat.leb_le in Hp.
      rewrite Hd, Hp in H. discriminate.
Qed.

Lemma currency_decodable_witness :
  (exists d, bank_currency_format_to_decimal "1.500,00+" = Ok d)
  /\ ~ (exists d, bank_currency_format_to_decimal "1.500.000,00+" = Ok d)
  /\ ~ (exists d, bank_currency_format_to_decimal "50,00" = Ok d).
Proof.
  split; [|split].
  - apply (proj2 (currency_decodable "1.500,00+")).
    repeat split; [cbn; lia|now left].
  - intros H. apply (proj1 (currency_decodable "1.500.000,00+")) in H.
    destruct H as (_ & H & _). cbn in H. lia.
  - intros H. apply (proj1 (currency_decodable "50,00")) in H.
    destruct H as (_ & _ & [H|H]); discriminate H.
Defined.

(** ** Reading the offset *)

Lemma all_digits_string_of_uint (d : Decimal.uint) :
  Str.all_digits (NilEmpty.string_of_uint d) = true.
Proof. induction d; cbn; auto. Qed.

Lemma of_int_digits (n : Z) :
  0 <= n -> Str.all_digits (Str.of_int n) = true /\ Str.of_int n <> EmptyString.
Proof.
  intros Hn. destruct n as [|p|p]; [split; [reflexivity|discriminate]| |lia].
  unfold Str.of_int. cbn [Z.to_int NilZero.string_of_int].
  unfold NilZero.string_of_uint.
  destruct (Pos.to_uint p) eqn:E;
    try (rewrite <- E; split; [apply all_digits_string_of_uint|];
         rewrite E; discriminate).
  split; [reflexivity|discriminate].
Qed.

Lemma match_left_here_other (c : ascii) (s : string) :
  c <> "l"%char -> match_left_here (String c s) = None.
Proof.
  intros Hc. unfold match_left_here. cbn [Str.strip_prefix].
  destruct (Ascii.eqb_spec "l" c) as [E|_]; [now subst|reflexivity].
Qed.

(** Characters other than [l] before a text without offset give a text
    without offset. *)
Lemma match_left_style_skip (pre b : string) :
  has_char "l" pre = false ->
  match_left_style b = None ->
  match_left_style (pre ++ b) = None.
Proof.
  intros Hl Hb. induction pre as [|c pre IH]; [exact Hb|].
  cbn [has_char] in Hl. apply orb_false_elim in Hl as [Hc Hl].
  cbn [append match_left_style]. rewrite (IH Hl).
  destruct (Ascii.eqb c Str.newline); [reflexivity|].
  apply match_left_here_other. intros ->. discriminate Hc.
Qed.

Lemma digits_no_l (ds : string) :
  Str.all_digits ds = true -> has_char "l" ds = false.
Proof.
  induction ds as [|c ds IH]; [reflexivity|].
  cbn [Str.all_digits has_char]. intros H.
  apply andb_prop in H as [Hc Hd]. rewrite (IH Hd), orb_false_r.
  destruct (Ascii.eqb_spec c "l") as [->|]; [discriminate Hc|reflexivity].
Qed.

(** The offset at the front of a text that has none further on. *)
Lemma match_left_style_front (ds b : string) :
  ds <> EmptyString -> Str.all_digits ds = true ->
  match_left_style b = None ->
  match_left_style ("left:" ++ ds ++ "pt" ++ b) = Some (Str.int ds).
Proof.
  intros Hne Hd Hb.
  assert (Hrest : match_left_style ("eft:" ++ ds ++ "pt" ++ b) = None).
  { replace ("eft:" ++ ds ++ "pt" ++ b) with (("eft:" ++ ds ++ "pt") ++ b)
      by (now rewrite !str_app_assoc).
    apply match_left_style_skip; [|exact Hb].
    rewrite !has_char_app, (digits_no_l ds Hd). reflexivity. }
  change ("left:" ++ ds ++ "pt" ++ b)
    with (String "l" ("eft:" ++ ds ++ "pt" ++ b)).
  cbn [match_left_style]. rewrite Hrest.
  change (Ascii.eqb "l" Str.newline) with false. cbv iota.
  change (String "l" ("eft:" ++ ds ++ "pt" ++ b))
    with ("left:" ++ ds ++ "pt" ++ b).
  now apply match_left_here_complete.
Qed.

Lemma match_left_style_line (a s : string) (n : Z) :
  has_char Str.newline a = false ->
  match_left_style s = Some n ->
  match_left_style (a ++ s) = Some n.
Proof.
  intros Ha Hs. induction a as [|c a IH]; [exact Hs|].
  cbn [has_char] in Ha. apply orb_false_elim in Ha as [Hc Ha].
  cbn [append match_left_style]. now rewrite Hc, (IH Ha).
Qed.

(** X24. The offset of an element is the number of the last
    [left:<n>pt] on the first line of its paragraph style: for a style
    that has, after any text without a line break, [left:], a natural
    number [n] in decimal, [pt], and then a rest that holds no offset of
    its own, the offset read is [n]. *)
Theorem left_offset_read (a b : string) (n : Z) :
  0 <= n ->
  has_char Str.newline a = false ->
  match_left_style b = None ->
  match_left_style (a ++ "left:" ++ Str.of_int n ++ "pt" ++ b) = Some n.
Proof.
  intros Hn Ha Hb. destruct (of_int_digits n Hn) as [Hd Hne].
  apply match_left_style_line; [exact Ha|].
  rewrite (match_left_style_front (Str.of_int n) b Hne Hd Hb).
  now rewrite int_of_int.
Qed.

Lemma left_offset_read_witness :
  match_left_style ("top:120pt;left:3pt;margin-" ++ "left:" ++ Str.of_int 57
                      ++ "pt" ++ ";line-height:9pt")
  = Some 57.
Proof.
  apply (left_offset_read "top:120pt;left:3pt;margin-" ";line-height:9pt" 57).
  - lia.
  - reflexivity.
  - reflexivity.
Defined.
